(** * alertiris: the alert lifecycle reconciler, embedded and verified

    A shallow embedding of [main.go] (webhook handler, reconciler, severity
    and description mapping, fingerprint index) and of the IRIS client
    ([CreateAlert], [UpdateAlert], [DeleteAlert], [do]).

    - Go [int] is [Z]; [string] and [[]byte] are [string] (a byte sequence);
      [map[string]T] is [gmap string T]; a pointer used as an optional field
      is an [option].
    - A Go result [(v, err)] is a sum [error + V] ([inl err] when
      [err != nil], where the code never reads [v]); a lone [error] result is
      an [option error], [None] being [nil].
    - The badger store is the state; calls of the IRIS client, badger
      transactions and log records are events.  A handler step is a
      function from the store to its result, the store it leaves and the
      events it caused, in order.  What the outside answers during one alert
      (store faults, the HTTP exchange) is an explicit [Env]. *)

From Stdlib Require Import ZArith Ascii String DecimalString DecimalPos DecimalZ.
From stdpp Require Import base option list strings gmap.

Local Open Scope string_scope.
Local Open Scope Z_scope.

(** ** Errors *)

(** Go error values, as far as the program tells them apart: the sentinel
    [badger.ErrKeyNotFound] (compared with [!=] in [processAlert]), the
    [*strconv.NumError] of [strconv.Atoi], an error carrying only a message
    (a library failure, or [fmt.Errorf] without [%w]), and
    [fmt.Errorf("<ctx>: %w", cause)]. *)
Inductive error : Type :=
  | ErrKeyNotFound
  | NumError (fn num : string)
  | ErrText (msg : string)
  | Errorf (ctx : string) (cause : error).

#[global] Instance error_eq_dec : EqDecision error.
Proof. solve_decision. Defined.

(** ** strconv *)

Module strconv.

(** [strconv.Itoa]: minus sign for negatives, no leading zeros, ["0"] for 0. *)
Definition Itoa (i : Z) : string := NilZero.string_of_int (Z.to_int i).

Definition isDigit (c : ascii) : bool :=
  (48 <=? nat_of_ascii c)%nat && (nat_of_ascii c <=? 57)%nat.

Definition digitVal (c : ascii) : Z := Z.of_nat (nat_of_ascii c) - 48.

(** The digit loop of [ParseUint] in base 10: [None] on a byte that is not
    a decimal digit. *)
Fixpoint digits (s : string) (n : Z) : option Z :=
  match s with
  | EmptyString => Some n
  | String c rest =>
      if isDigit c then digits rest (n * 10 + digitVal c) else None
  end.

Definition minInt : Z := - 2 ^ 63.
Definition maxInt : Z := 2 ^ 63 - 1.

(** The values of Go's 64-bit [int]. *)
Definition isInt (i : Z) : Prop := minInt <= i <= maxInt.

(** [strconv.Atoi]: an optional sign, then one or more decimal digits; the
    value must fit [int].  Every failure is a [*NumError]. *)
Definition Atoi (s : string) : error + Z :=
  let fail := inl (NumError "Atoi" s) in
  match s with
  | EmptyString => fail
  | String c rest =>
      let neg := Ascii.eqb c "-" in
      let body := if neg || Ascii.eqb c "+" then rest else s in
      match body with
      | EmptyString => fail
      | _ =>
          match digits body 0 with
          | None => fail
          | Some un =>
              let n := if neg then - un else un in
              if (minInt <=? n) && (n <=? maxInt) then inr n else fail
          end
      end
  end.

End strconv.

Import strconv.

(** ** Data model ([main.go]) *)

Record AlertConfig : Type := {
  Source : string;
  CustomerID : Z;
  ClassificationID : Z;
  StatusIDNew : Z;
  StatusIDResolved : Z;
  ResolvedAction : string;
  DefaultSeverityID : Z;
  SeverityMap : gmap string Z
}.

Record Alert : Type := {
  Status : string;
  Labels : gmap string string;
  Annotations : gmap string string;
  StartsAt : string;
  EndsAt : string;
  GeneratorURL : string;
  Fingerprint : string
}.

Record AlertmanagerPayload : Type := {
  Receiver : string;
  payload_Status : string;
  Alerts : list Alert;
  GroupLabels : gmap string string;
  CommonLabels : gmap string string;
  CommonAnnotations : gmap string string;
  ExternalURL : string;
  Version : string;
  GroupKey : string;
  TruncatedAlerts : Z
}.

(** [m[k]] on a Go [map[string]string]: the zero value when [k] is absent
    (also on a nil map). *)
Definition index (m : gmap string string) (k : string) : string :=
  default "" (m !! k).

(** ** The IRIS client's types *)

Record IRISClient : Type := {
  baseURL : string;
  apiKey : string
}.

Record IRISAlertRequest : Type := {
  req_Title : string;
  req_Description : string;
  req_Source : string;
  req_SourceRef : string;
  req_SourceLink : string;
  req_SourceEventTime : string;
  req_SourceContent : option string;
  req_SeverityID : Z;
  req_StatusID : Z;
  req_CustomerID : Z;
  req_ClassificationID : Z;
  req_Note : string;
  req_Tags : string
}.

(** Every pointer field is an [option]: [None] is the nil pointer, a field
    the update leaves out. *)
Record IRISAlertUpdateRequest : Type := {
  upd_Title : option string;
  upd_Description : option string;
  upd_Source : option string;
  upd_SourceRef : option string;
  upd_SourceLink : option string;
  upd_SourceEventTime : option string;
  upd_SourceContent : option string;
  upd_SeverityID : option Z;
  upd_StatusID : option Z;
  upd_CustomerID : option Z;
  upd_ClassificationID : option Z;
  upd_Tags : option string
}.

Record IRISResponse : Type := {
  resp_Status : string;
  resp_Data : string;
  resp_Msg : string
}.

(** ** net/http and encoding/json, as far as the client uses them *)

Record Request : Type := {
  Method : string;
  URL : string;
  Header : gmap string string;
  Body : option string
}.

(** What [httpClient.Do] hands back when it does not fail: the status code
    and what [io.ReadAll] makes of the body. *)
Record Response : Type := {
  StatusCode : Z;
  ReadAll : error + string
}.

(** The pure library functions the embedding leaves open: the JSON codec of
    each struct and the check [http.NewRequest] makes of method and URL. *)
Class Lib : Type := {
  Marshal_Alert : Alert -> error + string;
  Marshal_IRISAlertRequest : IRISAlertRequest -> error + string;
  Marshal_IRISAlertUpdateRequest : IRISAlertUpdateRequest -> error + string;
  Unmarshal_IRISResponse : string -> error + IRISResponse;
  Unmarshal_IRISAlertData : string -> error + Z;
  Decode_AlertmanagerPayload : string -> error + AlertmanagerPayload;
  NewRequest_check : string -> string -> option error
}.

(** What the outside does while one alert is reconciled: whether the badger
    transactions fail for a reason other than a missing key, and how the
    IRIS server (or the network) answers. *)
Record Env : Type := {
  view_fault : option string;
  update_fault : option string;
  RoundTrip : Request -> error + Response
}.

(** ** Steps: the store and the events *)

Inductive Level : Type := LevelInfo | LevelWarn | LevelError.

Inductive Attr : Type :=
  | AString (key val : string)
  | AInt (key : string) (val : Z)
  | AError (key : string) (val : error).

(** One observable effect.  [EvView], [EvSet] and [EvDelete] are badger
    transactions with their outcome; [EvCreateAlert], [EvUpdateAlert] and
    [EvDeleteAlert] are calls of the client's [CreateAlert], [UpdateAlert]
    and [DeleteAlert] with what they returned; [EvLog] is a [slog] record. *)
Inductive Event : Type :=
  | EvView (key : string) (res : error + Z)
  | EvSet (key val : string) (err : option error)
  | EvDelete (key : string) (err : option error)
  | EvCreateAlert (req : IRISAlertRequest) (cid : Z) (res : error + Z)
  | EvUpdateAlert (alertID : Z) (req : IRISAlertUpdateRequest) (cid : Z)
                  (err : option error)
  | EvDeleteAlert (alertID : Z) (cid : Z) (err : option error)
  | EvLog (level : Level) (msg : string) (attrs : list Attr).

Record Out (A : Type) : Type := mkOut {
  result : A;
  store : gmap string string;
  events : list Event
}.
Arguments mkOut {A} _ _ _.
Arguments result {A} _.
Arguments store {A} _.
Arguments events {A} _.

Definition M (A : Type) : Type := gmap string string -> Out A.

#[global] Instance M_ret : MRet M := fun A (a : A) db => mkOut a db [].
#[global] Instance M_bind : MBind M :=
  fun A B (f : A -> M B) (m : M A) db =>
    let o := m db in
    let o' := f (result o) (store o) in
    mkOut (result o') (store o') (events o ++ events o').

Definition emit (e : Event) : M unit := fun db => mkOut tt db [e].

Definition slog (level : Level) (msg : string) (attrs : list Attr) : M unit :=
  emit (EvLog level msg attrs).

(** ** The IRIS client *)

Section Client.
Context `{lib : Lib}.

(** [http.NewRequest] followed by the two [req.Header.Set] calls. *)
Definition NewRequest (method url : string) (body : option string)
  : error + Request :=
  match NewRequest_check method url with
  | Some err => inl err
  | None => inr {| Method := method; URL := url; Header := ∅; Body := body |}
  end.

Definition Header_Set (req : Request) (key val : string) : Request :=
  {| Method := Method req; URL := URL req;
     Header := <[key := val]> (Header req); Body := Body req |}.

(** [(c *IRISClient) do].  The status test is [resp.StatusCode >= 400]. *)
Definition do (c : IRISClient) (env : Env) (method path : string)
    (body : option string) (cid : Z) : error + IRISResponse :=
  let reqBody := body in
  let url := baseURL c +:+ path +:+ "?cid=" +:+ Itoa cid in
  match NewRequest method url reqBody with
  | inl err => inl (Errorf "create request" err)
  | inr req =>
      let req := Header_Set req "Authorization" ("Bearer " +:+ apiKey c) in
      let req := Header_Set req "Content-Type" "application/json" in
      match RoundTrip env req with
      | inl err => inl (Errorf ("http " +:+ method +:+ " " +:+ path) err)
      | inr resp =>
          match ReadAll resp with
          | inl err => inl (Errorf "read response" err)
          | inr respBody =>
              if 400 <=? StatusCode resp then
                inl (ErrText ("iris api " +:+ method +:+ " " +:+ path +:+
                              " returned " +:+ Itoa (StatusCode resp) +:+
                              ": " +:+ respBody))
              else
                match Unmarshal_IRISResponse respBody with
                | inl err => inl (Errorf "unmarshal response" err)
                | inr irisResp =>
                    if negb (String.eqb (resp_Status irisResp) "success") then
                      inl (ErrText ("iris api error: " +:+ resp_Msg irisResp))
                    else inr irisResp
                end
          end
      end
  end.

(** What [CreateAlert] returns. *)
Definition CreateAlert_result (c : IRISClient) (env : Env)
    (req : IRISAlertRequest) (cid : Z) : error + Z :=
  match Marshal_IRISAlertRequest req with
  | inl err => inl (Errorf "marshal create request" err)
  | inr body =>
      match do c env "POST" "/alerts/add" (Some body) cid with
      | inl err => inl err
      | inr resp =>
          match Unmarshal_IRISAlertData (resp_Data resp) with
          | inl err => inl (Errorf "unmarshal alert data" err)
          | inr AlertID => inr AlertID
          end
      end
  end.

Definition UpdateAlert_result (c : IRISClient) (env : Env) (alertID : Z)
    (req : IRISAlertUpdateRequest) (cid : Z) : option error :=
  match Marshal_IRISAlertUpdateRequest req with
  | inl err => Some (Errorf "marshal update request" err)
  | inr body =>
      match do c env "POST" ("/alerts/update/" +:+ Itoa alertID)
               (Some body) cid with
      | inl err => Some err
      | inr _ => None
      end
  end.

Definition DeleteAlert_result (c : IRISClient) (env : Env) (alertID : Z)
    (cid : Z) : option error :=
  match do c env "POST" ("/alerts/delete/" +:+ Itoa alertID) None cid with
  | inl err => Some err
  | inr _ => None
  end.

(** The three client methods as steps: the call and its result are the
    event; the store is not touched. *)
Definition CreateAlert (c : IRISClient) (env : Env) (req : IRISAlertRequest)
    (cid : Z) : M (error + Z) :=
  let res := CreateAlert_result c env req cid in
  emit (EvCreateAlert req cid res);; mret res.

Definition UpdateAlert (c : IRISClient) (env : Env) (alertID : Z)
    (req : IRISAlertUpdateRequest) (cid : Z) : M (option error) :=
  let err := UpdateAlert_result c env alertID req cid in
  emit (EvUpdateAlert alertID req cid err);; mret err.

Definition DeleteAlert (c : IRISClient) (env : Env) (alertID : Z) (cid : Z)
    : M (option error) :=
  let err := DeleteAlert_result c env alertID cid in
  emit (EvDeleteAlert alertID cid err);; mret err.

End Client.

(** ** The handler ([main.go]) *)

Record Handler : Type := {
  iris : IRISClient;
  config : AlertConfig
}.

Definition dbKey (fingerprint : string) : string := "fp:" +:+ fingerprint.

(** [LF] is the one-byte string ["\n"]. *)
Definition LF : string := String (ascii_of_nat 10) EmptyString.

(** [strings.Join]: the separator stands between consecutive elements only. *)
Fixpoint Join (elems : list string) (sep : string) : string :=
  match elems with
  | [] => ""
  | [x] => x
  | x :: rest => x +:+ sep +:+ Join rest sep
  end.

(** The closure [add] of [alertDescription], with the slice it appends to
    passed through. *)
Definition add (key val : string) (lines : list string) : list string :=
  if negb (String.eqb val "") then lines ++ [key +:+ ": " +:+ val] else lines.

Definition alertDescription (alert : Alert) : string :=
  let lines := [] in
  let lines := add "Alert" (index (Labels alert) "alertname") lines in
  let lines := add "Severity" (index (Labels alert) "severity") lines in
  let lines := add "Description" (index (Annotations alert) "description") lines in
  let lines := add "Summary" (index (Annotations alert) "summary") lines in
  let lines := add "Hostname" (index (Labels alert) "hostname") lines in
  let lines := add "Instance" (index (Labels alert) "instance_name") lines in
  let lines := add "Service" (index (Labels alert) "service") lines in
  let lines := add "Group" (index (Labels alert) "group") lines in
  let lines := add "Tier" (index (Labels alert) "tier") lines in
  let lines := add "Load" (index (Annotations alert) "load") lines in
  let lines := add "Started At" (StartsAt alert) lines in
  let lines := add "Fingerprint" (Fingerprint alert) lines in
  let lines := add "Generator URL" (GeneratorURL alert) lines in
  Join lines LF.

Definition severityID (h : Handler) (alert : Alert) : Z :=
  match Labels alert !! "severity" with
  | Some sev =>
      match SeverityMap (config h) !! sev with
      | Some id => id
      | None => DefaultSeverityID (config h)
      end
  | None => DefaultSeverityID (config h)
  end.

(** *** The fingerprint index: three badger transactions *)

(** [db.View]: [txn.Get], then [strconv.Atoi] on the value.  A store fault
    is any error other than the missing key. *)
Definition getAlertID (env : Env) (fingerprint : string) : M (error + Z) :=
  fun db =>
    let res :=
      match view_fault env with
      | Some msg => inl (ErrText msg)
      | None =>
          match db !! dbKey fingerprint with
          | None => inl ErrKeyNotFound
          | Some val => Atoi val
          end
      end in
    mkOut res db [EvView (dbKey fingerprint) res].

(** [db.Update] with [txn.Set]: all or nothing. *)
Definition storeAlertID (env : Env) (fingerprint : string) (alertID : Z)
  : M (option error) :=
  fun db =>
    let key := dbKey fingerprint in
    let val := Itoa alertID in
    match update_fault env with
    | Some msg =>
        let err := Some (ErrText msg) in mkOut err db [EvSet key val err]
    | None => mkOut None (<[key := val]> db) [EvSet key val None]
    end.

(** [db.Update] with [txn.Delete]; deleting a missing key succeeds. *)
Definition deleteAlertID (env : Env) (fingerprint : string) : M (option error) :=
  fun db =>
    let key := dbKey fingerprint in
    match update_fault env with
    | Some msg =>
        let err := Some (ErrText msg) in mkOut err db [EvDelete key err]
    | None => mkOut None (delete key db) [EvDelete key None]
    end.

Section Reconciler.
Context `{lib : Lib}.

(** [sourceContent, _ := json.Marshal(alert)]: the error is dropped and
    the slice is nil then. *)
Definition sourceContentOf (alert : Alert) : string :=
  match Marshal_Alert alert with
  | inr bytes => bytes
  | inl _ => ""
  end.

(** The [IRISAlertRequest] literal of [createAlert]; the fields it does
    not set ([ClassificationID], [Note]) have their zero value. *)
Definition createRequest (h : Handler) (alert : Alert) : IRISAlertRequest :=
  let sourceContent := sourceContentOf alert in
  {| req_Title := index (Labels alert) "alertname";
     req_Description := alertDescription alert;
     req_Source := Source (config h);
     req_SourceRef := Fingerprint alert;
     req_SourceLink := GeneratorURL alert;
     req_SourceEventTime := StartsAt alert;
     req_SourceContent := Some sourceContent;
     req_SeverityID := severityID h alert;
     req_StatusID := StatusIDNew (config h);
     req_CustomerID := CustomerID (config h);
     req_ClassificationID := 0;
     req_Note := "";
     req_Tags := index (Labels alert) "alertname" |}.

(** [main.go] hands [cfg.Alerts.CustomerID] to [NewIRISClient] and calls the
    client's methods without a customer id; the methods take it as their
    last argument [cid].  Every call below carries the configured id. *)
Definition createAlert (h : Handler) (env : Env) (alert : Alert)
  : M (option error) :=
  let req := createRequest h alert in
  res ← CreateAlert (iris h) env req (CustomerID (config h));
  match res with
  | inl err => mret (Some (Errorf "create iris alert" err))
  | inr alertID =>
      err ← storeAlertID env (Fingerprint alert) alertID;
      match err with
      | Some err => mret (Some (Errorf "store alert mapping" err))
      | None =>
          slog LevelInfo "created iris alert"
            [AString "fingerprint" (Fingerprint alert);
             AInt "alert_id" alertID];;
          mret None
      end
  end.

(** The [IRISAlertUpdateRequest] literal of [updateAlert]: description,
    event time, content, severity and tags; the other pointers stay nil. *)
Definition updateRequest (h : Handler) (alert : Alert)
  : IRISAlertUpdateRequest :=
  let sourceContent := sourceContentOf alert in
  let desc := alertDescription alert in
  let sevID := severityID h alert in
  let tags := index (Labels alert) "alertname" in
  {| upd_Title := None;
     upd_Description := Some desc;
     upd_Source := None;
     upd_SourceRef := None;
     upd_SourceLink := None;
     upd_SourceEventTime := Some (StartsAt alert);
     upd_SourceContent := Some sourceContent;
     upd_SeverityID := Some sevID;
     upd_StatusID := None;
     upd_CustomerID := None;
     upd_ClassificationID := None;
     upd_Tags := Some tags |}.

Definition updateAlert (h : Handler) (env : Env) (alertID : Z) (alert : Alert)
  : M (option error) :=
  let req := updateRequest h alert in
  err ← UpdateAlert (iris h) env alertID req (CustomerID (config h));
  match err with
  | Some err =>
      mret (Some (Errorf ("update iris alert " +:+ Itoa alertID) err))
  | None =>
      slog LevelInfo "updated iris alert"
        [AString "fingerprint" (Fingerprint alert); AInt "alert_id" alertID];;
      mret None
  end.

(** The update request of [resolveAlert]: the status and nothing else. *)
Definition statusOnly (statusID : Z) : IRISAlertUpdateRequest := {|
  upd_Title := None;
  upd_Description := None;
  upd_Source := None;
  upd_SourceRef := None;
  upd_SourceLink := None;
  upd_SourceEventTime := None;
  upd_SourceContent := None;
  upd_SeverityID := None;
  upd_StatusID := Some statusID;
  upd_CustomerID := None;
  upd_ClassificationID := None;
  upd_Tags := None |}.

(** [finish] is the code after the [if]/[else], which a branch reaches
    when it did not return: the index delete. *)
Definition resolveAlert (h : Handler) (env : Env) (alertID : Z) (alert : Alert)
  : M (option error) :=
  let finish : M (option error) :=
    err ← deleteAlertID env (Fingerprint alert);
    match err with
    | Some err => mret (Some (Errorf "delete alert mapping" err))
    | None => mret None
    end in
  if String.eqb (ResolvedAction (config h)) "delete" then
    err ← DeleteAlert (iris h) env alertID (CustomerID (config h));
    match err with
    | Some err =>
        mret (Some (Errorf ("delete iris alert " +:+ Itoa alertID) err))
    | None =>
        slog LevelInfo "deleted iris alert"
          [AString "fingerprint" (Fingerprint alert);
           AInt "alert_id" alertID];;
        finish
    end
  else
    let statusID := StatusIDResolved (config h) in
    let req := statusOnly statusID in
    err ← UpdateAlert (iris h) env alertID req (CustomerID (config h));
    match err with
    | Some err =>
        mret (Some (Errorf ("resolve iris alert " +:+ Itoa alertID) err))
    | None =>
        slog LevelInfo "resolved iris alert"
          [AString "fingerprint" (Fingerprint alert);
           AInt "alert_id" alertID];;
        finish
    end.

(** The lookup, the early return on an error other than the missing key,
    then the [switch] on the status with [exists := err == nil]. *)
Definition processAlert (h : Handler) (env : Env) (alert : Alert)
  : M (option error) :=
  let fp := Fingerprint alert in
  res ← getAlertID env fp;
  match res with
  | inl err =>
      if bool_decide (err ≠ ErrKeyNotFound) then
        mret (Some (Errorf "db lookup" err))
      else
        (* exists = false *)
        if String.eqb (Status alert) "firing" then createAlert h env alert
        else if String.eqb (Status alert) "resolved" then
          slog LevelWarn "resolved alert not found in db, skipping"
            [AString "fingerprint" fp];;
          mret None
        else
          slog LevelWarn "unknown alert status"
            [AString "status" (Status alert); AString "fingerprint" fp];;
          mret None
  | inr existingID =>
      (* exists = true *)
      if String.eqb (Status alert) "firing" then
        updateAlert h env existingID alert
      else if String.eqb (Status alert) "resolved" then
        resolveAlert h env existingID alert
      else
        slog LevelWarn "unknown alert status"
          [AString "status" (Status alert); AString "fingerprint" fp];;
        mret None
  end.

(** *** The webhook *)

Record WebhookRequest : Type := {
  r_Method : string;
  r_Body : string
}.

(** What the handler writes to the [http.ResponseWriter]: the status code,
    and the message it hands to [http.Error] (none after a bare
    [WriteHeader]). *)
Record Reply : Type := {
  code : Z;
  text : string
}.

(** The [for _, alert := range payload.Alerts] loop; [envs i] is what the
    outside does during the [i]-th alert of the batch. *)
Fixpoint rangeAlerts (h : Handler) (envs : nat -> Env) (i : nat)
    (alerts : list Alert) : M unit :=
  match alerts with
  | [] => mret tt
  | alert :: rest =>
      err ← processAlert h (envs i) alert;
      match err with
      | Some err =>
          slog LevelError "failed to process alert"
            [AString "fingerprint" (Fingerprint alert); AError "error" err]
      | None => mret tt
      end;;
      rangeAlerts h envs (S i) rest
  end.

Definition HandleWebhook (h : Handler) (envs : nat -> Env)
    (r : WebhookRequest) : M Reply :=
  if negb (String.eqb (r_Method r) "POST") then
    mret {| code := 405; text := "method not allowed" |}
  else
    match Decode_AlertmanagerPayload (r_Body r) with
    | inl err =>
        slog LevelError "failed to decode payload" [AError "error" err];;
        mret {| code := 400; text := "bad request" |}
    | inr payload =>
        rangeAlerts h envs 0 (Alerts payload);;
        mret {| code := 200; text := "" |}
    end.

End Reconciler.

(** ** Reading a run *)

(** The state of a fingerprint as the reconciler observes it: what
    [getAlertID] reports. *)
Definition Untracked (env : Env) (db : gmap string string) (fp : string) : Prop :=
  result (getAlertID env fp db) = inl ErrKeyNotFound.

Definition Tracked (env : Env) (db : gmap string string) (fp : string) (id : Z)
  : Prop :=
  result (getAlertID env fp db) = inr id.

Definition isRemote (e : Event) : bool :=
  match e with
  | EvCreateAlert _ _ _ | EvUpdateAlert _ _ _ _ | EvDeleteAlert _ _ _ => true
  | _ => false
  end.

Definition remoteFailed (e : Event) : bool :=
  match e with
  | EvCreateAlert _ _ (inl _)
  | EvUpdateAlert _ _ _ (Some _)
  | EvDeleteAlert _ _ (Some _) => true
  | _ => false
  end.

Definition remoteSucceeded (e : Event) : bool :=
  match e with
  | EvCreateAlert _ _ (inr _)
  | EvUpdateAlert _ _ _ None
  | EvDeleteAlert _ _ None => true
  | _ => false
  end.

Definition isIndexWrite (e : Event) : bool :=
  match e with
  | EvSet _ _ _ | EvDelete _ _ => true
  | _ => false
  end.

(** Every index write of the run comes after a remote call that succeeded
    ([seen] tells whether one precedes the events at hand). *)
Fixpoint writesGuarded (seen : bool) (evs : list Event) : bool :=
  match evs with
  | [] => true
  | e :: rest =>
      (if isIndexWrite e then seen else true) &&
      writesGuarded (seen || remoteSucceeded e) rest
  end.

(** The store after the index writes among [evs], applied in order to [db]. *)
Fixpoint replay (db : gmap string string) (evs : list Event)
  : gmap string string :=
  match evs with
  | [] => db
  | EvSet key val None :: rest => replay (<[key := val]> db) rest
  | EvDelete key None :: rest => replay (delete key db) rest
  | _ :: rest => replay db rest
  end.

(** Every [txn.Set] among [evs] addresses a key the store, as the earlier
    writes left it, does not hold. *)
Fixpoint setsFresh (db : gmap string string) (evs : list Event) : bool :=
  match evs with
  | [] => true
  | EvSet key val err :: rest =>
      bool_decide (db !! key = None) &&
      setsFresh (replay db [EvSet key val err]) rest
  | e :: rest => setsFresh (replay db [e]) rest
  end.

(** The remote calls of a run, in order. *)
Definition remoteCalls (evs : list Event) : list Event := List.filter isRemote evs.

(** The keys the run looked up, in order. *)
Fixpoint viewedKeys (evs : list Event) : list string :=
  match evs with
  | [] => []
  | EvView key _ :: rest => key :: viewedKeys rest
  | _ :: rest => viewedKeys rest
  end.

(** After the remote call of [resolveAlert] went through: the log record,
    then the index delete. *)
Definition resolved_tail (env : Env) (alert : Alert) (db : gmap string string)
    (call : Event) (msg : string) (id : Z) : Out (option error) :=
  let key := dbKey (Fingerprint alert) in
  let log := EvLog LevelInfo msg
               [AString "fingerprint" (Fingerprint alert); AInt "alert_id" id] in
  match update_fault env with
  | Some m =>
      mkOut (Some (Errorf "delete alert mapping" (ErrText m))) db
        [call; log; EvDelete key (Some (ErrText m))]
  | None => mkOut None (delete key db) [call; log; EvDelete key None]
  end.

(** A run that starts with the lookup [key], answered [res]. *)
Definition after_view {A : Type} (key : string) (res : error + Z) (o : Out A)
  : Out A :=
  mkOut (result o) (store o) (EvView key res :: events o).

(** What the webhook loop logs after one alert. *)
Definition failureLog (alert : Alert) (err : option error) : list Event :=
  match err with
  | Some err =>
      [EvLog LevelError "failed to process alert"
         [AString "fingerprint" (Fingerprint alert); AError "error" err]]
  | None => []
  end.

(** The handler [h] with another configured resolved action. *)
Definition with_action (h : Handler) (action : string) : Handler := {|
  iris := iris h;
  config := {|
    Source := Source (config h);
    CustomerID := CustomerID (config h);
    ClassificationID := ClassificationID (config h);
    StatusIDNew := StatusIDNew (config h);
    StatusIDResolved := StatusIDResolved (config h);
    ResolvedAction := action;
    DefaultSeverityID := DefaultSeverityID (config h);
    SeverityMap := SeverityMap (config h) |} |}.

(** ** The description, as specified *)

(** The description as the specification words it: the recognised fields in
    their fixed order, each with its literal label. *)
Definition descriptionFields (alert : Alert) : list (string * string) :=
  [ ("Alert", index (Labels alert) "alertname");
    ("Severity", index (Labels alert) "severity");
    ("Description", index (Annotations alert) "description");
    ("Summary", index (Annotations alert) "summary");
    ("Hostname", index (Labels alert) "hostname");
    ("Instance", index (Labels alert) "instance_name");
    ("Service", index (Labels alert) "service");
    ("Group", index (Labels alert) "group");
    ("Tier", index (Labels alert) "tier");
    ("Load", index (Annotations alert) "load");
    ("Started At", StartsAt alert);
    ("Fingerprint", Fingerprint alert);
    ("Generator URL", GeneratorURL alert) ].

Definition nonEmpty (kv : string * string) : bool := negb (String.eqb kv.2 "").

Definition fieldLine (kv : string * string) : string := kv.1 +:+ ": " +:+ kv.2.

(** One line per field whose value is not empty, order kept. *)
Definition descriptionLines (alert : Alert) : list string :=
  map fieldLine (List.filter nonEmpty (descriptionFields alert)).

Definition descriptionFor (alert : Alert) : string :=
  Join (descriptionLines alert) LF.

(** ** The client's failure causes *)

Section ClientFailure.
Context `{lib : Lib}.

(** The request [do] hands to the transport. *)
Definition sentRequest (c : IRISClient) (method path : string)
    (body : option string) (cid : Z) : Request :=
  Header_Set
    (Header_Set
       {| Method := method;
          URL := baseURL c +:+ path +:+ "?cid=" +:+ Itoa cid;
          Header := ∅; Body := body |}
       "Authorization" ("Bearer " +:+ apiKey c))
    "Content-Type" "application/json".

(** What is wrong with an answer the transport delivered: the body cannot
    be read, the status is 400 or more, the body does not parse, or the
    envelope does not say ["success"]. *)
Definition badAnswer (resp : Response) : Prop :=
  (exists err, ReadAll resp = inl err) \/
  400 <= StatusCode resp \/
  (exists respBody,
      ReadAll resp = inr respBody /\
      ((exists err, Unmarshal_IRISResponse respBody = inl err) \/
       (exists irisResp,
           Unmarshal_IRISResponse respBody = inr irisResp /\
           resp_Status irisResp <> "success"))).

(** The causes of failure of one exchange. *)
Definition doFails (c : IRISClient) (env : Env) (method path : string)
    (body : option string) (cid : Z) : Prop :=
  let req := sentRequest c method path body cid in
  (exists err, NewRequest_check method (URL req) = Some err) \/
  (exists err, RoundTrip env req = inl err) \/
  (exists resp, RoundTrip env req = inr resp /\ badAnswer resp).

End ClientFailure.

(** ** Construction and configuration ([NewIRISClient], [main]) *)

Record IRISConfig : Type := {
  cfg_URL : string;
  cfg_APIKey : string;
  cfg_SkipTLSVerify : bool
}.

Definition inCutset (c : ascii) (cutset : string) : bool :=
  existsb (Ascii.eqb c) (list_ascii_of_string cutset).

(** [strings.TrimRight(s, cutset)] for a cutset of ASCII bytes: the trailing
    bytes of [s] that occur in [cutset] are dropped. *)
Fixpoint TrimRight (s cutset : string) : string :=
  match s with
  | EmptyString => EmptyString
  | String c rest =>
      match TrimRight rest cutset with
      | EmptyString =>
          if inCutset c cutset then EmptyString else String c EmptyString
      | kept => String c kept
      end
  end.

(** [NewIRISClient], as the client file declares it (one argument; [main]
    passes the customer id as a second one): the client, and whether the
    [TLSClientConfig] of its transport is set (with [InsecureSkipVerify]). *)
Definition NewIRISClient (cfg : IRISConfig) : IRISClient * bool :=
  ({| baseURL := TrimRight (cfg_URL cfg) "/"; apiKey := cfg_APIKey cfg |},
   cfg_SkipTLSVerify cfg).

(** [n] slashes. *)
Fixpoint slashes (n : nat) : string :=
  match n with
  | O => EmptyString
  | S k => String "/" (slashes k)
  end.

(** [strings.TrimPrefix]. *)
Fixpoint stripPrefix (prefix s : string) : option string :=
  match prefix, s with
  | EmptyString, _ => Some s
  | String p prefix', String c s' =>
      if Ascii.eqb p c then stripPrefix prefix' s' else None
  | String _ _, EmptyString => None
  end.

Definition TrimPrefix (s prefix : string) : string :=
  match stripPrefix prefix s with
  | Some rest => rest
  | None => s
  end.

(** Every byte is below [utf8.RuneSelf]. *)
Fixpoint isASCII (s : string) : bool :=
  match s with
  | EmptyString => true
  | String c rest => (nat_of_ascii c <? 128)%nat && isASCII rest
  end.

Definition lowerByte (c : ascii) : ascii :=
  let n := nat_of_ascii c in
  if (65 <=? n)%nat && (n <=? 90)%nat then ascii_of_nat (n + 32) else c.

(** [strings.ToLower] on a string of ASCII bytes: ['A'..'Z'] move to
    ['a'..'z'], byte by byte.  A string with a byte of 128 or more takes the
    [unicode.ToLower] path, which is not embedded: the statements about
    [ToLower] assume [isASCII]. *)
Fixpoint ToLower (s : string) : string :=
  match s with
  | EmptyString => EmptyString
  | String c rest => String (lowerByte c) (ToLower rest)
  end.

(** The scan of [strings.Replace(s, old, new, -1)] for a non-empty [old]:
    at a position where [old] starts, [new] is written and the bytes of
    [old] are skipped ([skip] counts those still to skip); matches do not
    overlap and the leftmost wins. *)
Fixpoint replaceAll (old new : string) (skip : nat) (s : string) : string :=
  match s with
  | EmptyString => EmptyString
  | String c rest =>
      match skip with
      | S k => replaceAll old new k rest
      | O =>
          if String.prefix old s
          then new +:+ replaceAll old new (String.length old - 1) rest
          else String c (replaceAll old new O rest)
      end
  end.

Definition Replace (s old new : string) : string := replaceAll old new 0 s.

(** The key function [main] hands to [env.Provider]:
    [ALERTIRIS_SERVER__LISTEN] becomes [server.listen]. *)
Definition envKey (s : string) : string :=
  Replace (ToLower (TrimPrefix s "ALERTIRIS_")) "__" ".".

(** [s] ends with an underscore. *)
Fixpoint endsWithUnderscore (s : string) : bool :=
  match s with
  | EmptyString => false
  | String c EmptyString => Ascii.eqb c "_"
  | String _ rest => endsWithUnderscore rest
  end.

(** [s] has two underscores in a row. *)
Fixpoint hasDoubleUnderscore (s : string) : bool :=
  match s with
  | EmptyString => false
  | String c rest =>
      (Ascii.eqb c "_" && String.prefix "_" rest) || hasDoubleUnderscore rest
  end.

(** ** Further readings of a run *)

(** An operation of the run returned an error the reconciler does not
    absorb: a lookup error other than the missing key, a failed remote call,
    a failed index write. *)
Definition failed (e : Event) : bool :=
  match e with
  | EvView _ (inl err) => bool_decide (err <> ErrKeyNotFound)
  | EvSet _ _ (Some _) | EvDelete _ (Some _) => true
  | EvCreateAlert _ _ (inl _)
  | EvUpdateAlert _ _ _ (Some _)
  | EvDeleteAlert _ _ (Some _) => true
  | _ => false
  end.

(** The update leaves title, source, source reference, source link,
    customer and classification out (nil pointers). *)
Definition identityUntouched (req : IRISAlertUpdateRequest) : Prop :=
  upd_Title req = None /\ upd_Source req = None /\ upd_SourceRef req = None /\
  upd_SourceLink req = None /\ upd_CustomerID req = None /\
  upd_ClassificationID req = None.

(** Every value of the index is the decimal form of an [int]: what
    [storeAlertID] writes and [getAlertID] can read back. *)
Definition decodable (db : gmap string string) : Prop :=
  forall key val, db !! key = Some val -> exists id, isInt id /\ val = Itoa id.

(** ** Two alerts reconciled at once *)

Section Interleaving.
Context `{lib : Lib}.

(** What [processAlert] does once [getAlertID] has answered [res]: the
    early return, then the [switch]. *)
Definition afterLookup (h : Handler) (env : Env) (alert : Alert)
    (res : error + Z) : M (option error) :=
  let fp := Fingerprint alert in
  match res with
  | inl err =>
      if bool_decide (err <> ErrKeyNotFound) then
        mret (Some (Errorf "db lookup" err))
      else
        if String.eqb (Status alert) "firing" then createAlert h env alert
        else if String.eqb (Status alert) "resolved" then
          slog LevelWarn "resolved alert not found in db, skipping"
            [AString "fingerprint" fp];;
          mret None
        else
          slog LevelWarn "unknown alert status"
            [AString "status" (Status alert); AString "fingerprint" fp];;
          mret None
  | inr existingID =>
      if String.eqb (Status alert) "firing" then
        updateAlert h env existingID alert
      else if String.eqb (Status alert) "resolved" then
        resolveAlert h env existingID alert
      else
        slog LevelWarn "unknown alert status"
          [AString "status" (Status alert); AString "fingerprint" fp];;
        mret None
  end.

(** [main] registers the handler on an [http.Server], which runs each
    request in a goroutine of its own, and the handler takes no lock; the
    lookup ([db.View]) and the write ([db.Update]) of one alert are two
    transactions, with the remote call between them.  This is one schedule
    of two alerts of two requests: both lookups first, then what the first
    alert does with its answer, then what the second does with its own. *)
Definition bothLookupsFirst (h : Handler) (envA envB : Env)
    (alertA alertB : Alert) : M (option error * option error) :=
  resA ← getAlertID envA (Fingerprint alertA);
  resB ← getAlertID envB (Fingerprint alertB);
  errA ← afterLookup h envA alertA resA;
  errB ← afterLookup h envB alertB resB;
  mret (errA, errB).

End Interleaving.

(** ** Fixtures for the examples *)

Module Fixtures.

Definition alertOf (status fp : string) (labels : gmap string string) : Alert := {|
  Status := status; Labels := labels; Annotations := ∅;
  StartsAt := ""; EndsAt := ""; GeneratorURL := ""; Fingerprint := fp |}.

Definition payloadOf (alerts : list Alert) : AlertmanagerPayload := {|
  Receiver := ""; payload_Status := "firing"; Alerts := alerts;
  GroupLabels := ∅; CommonLabels := ∅; CommonAnnotations := ∅;
  ExternalURL := ""; Version := "4"; GroupKey := ""; TruncatedAlerts := 0 |}.

(** A stand-in codec: a response body is its envelope status, the data of
    every envelope is ["42"], alert data is a decimal id, and a webhook
    body decodes to a batch of two alerts, firing then resolved, whose
    fingerprint is the body. *)
Definition stubLib : Lib := {|
  Marshal_Alert := fun a => inr (Fingerprint a);
  Marshal_IRISAlertRequest := fun r => inr (req_Title r);
  Marshal_IRISAlertUpdateRequest := fun _ => inr "{}";
  Unmarshal_IRISResponse := fun body =>
    inr {| resp_Status := body; resp_Data := "42"; resp_Msg := "" |};
  Unmarshal_IRISAlertData := Atoi;
  Decode_AlertmanagerPayload := fun body =>
    inr (payloadOf [alertOf "firing" body ∅; alertOf "resolved" body ∅]);
  NewRequest_check := fun _ _ => None |}.

(** The server answers every request with this status and body. *)
Definition answering (status : Z) (body : string) : Env := {|
  view_fault := None;
  update_fault := None;
  RoundTrip := fun _ => inr {| StatusCode := status; ReadAll := inr body |} |}.

Definition serverOK : Env := answering 200 "success".
Definition serverDown : Env := answering 500 "internal error".

(** The server answers well but the badger write fails. *)
Definition diskFull : Env := {|
  view_fault := None;
  update_fault := Some "no space left on device";
  RoundTrip := RoundTrip serverOK |}.

Definition cfg (action : string) : AlertConfig := {|
  Source := "alertmanager"; CustomerID := 1; ClassificationID := 0;
  StatusIDNew := 2; StatusIDResolved := 6; ResolvedAction := action;
  DefaultSeverityID := 4;
  SeverityMap := {[ "critical" := 6; "warning" := 4 ]} |}.

Definition handler (action : string) : Handler := {|
  iris := {| baseURL := "https://iris.example.com"; apiKey := "k" |};
  config := cfg action |}.

Definition diskFullAlert (status : string) : Alert :=
  alertOf status "abc123" {[ "alertname" := "DiskFull" ]}.

(** The create call for that alert, answered with id 42. *)
Definition created : Event :=
  EvCreateAlert (@createRequest stubLib (handler "update") (diskFullAlert "firing"))
    1 (inr 42).

(** A second stand-in codec: every response body is a "success" envelope
    whose data is the body itself, so the server chooses the alert id. *)
Definition echoLib : Lib := {|
  Marshal_Alert := fun a => inr (Fingerprint a);
  Marshal_IRISAlertRequest := fun r => inr (req_Title r);
  Marshal_IRISAlertUpdateRequest := fun _ => inr "{}";
  Unmarshal_IRISResponse := fun body =>
    inr {| resp_Status := "success"; resp_Data := body; resp_Msg := "" |};
  Unmarshal_IRISAlertData := Atoi;
  Decode_AlertmanagerPayload := fun body =>
    inr (payloadOf [alertOf "firing" body ∅]);
  NewRequest_check := fun _ _ => None |}.

(** An index whose entry for ["abc123"] is not a decimal number. *)
Definition corrupted : gmap string string := {[ "fp:abc123" := "4x2" ]}.

(** The badger read fails. *)
Definition readFault : Env := {|
  view_fault := Some "value log truncated";
  update_fault := None;
  RoundTrip := RoundTrip serverOK |}.

(** The index after alert 42 was created for fingerprint ["abc123"]. *)
Definition tracking42 : gmap string string := {[ "fp:abc123" := "42" ]}.

End Fixtures.

(** * Theorems *)

(** ** strconv round trip *)

Example Atoi_plain : Atoi "42" = inr 42.
Proof. reflexivity. Qed.

Example Atoi_signed : Atoi "+7" = inr 7 /\ Atoi "-0012" = inr (-12).
Proof. split; reflexivity. Qed.

Example Atoi_rejects :
  Atoi "" = inl (NumError "Atoi" "") /\
  Atoi "-" = inl (NumError "Atoi" "-") /\
  Atoi "4x2" = inl (NumError "Atoi" "4x2") /\
  Atoi "9223372036854775808" = inl (NumError "Atoi" "9223372036854775808").
Proof. repeat split; vm_compute; reflexivity. Qed.

Example Itoa_values : Itoa 0 = "0" /\ Itoa 42 = "42" /\ Itoa (-7) = "-7".
Proof. repeat split; reflexivity. Qed.

Lemma digits_of_uint_acc (d : Decimal.uint) (acc : positive) :
  digits (NilEmpty.string_of_uint d) (Z.pos acc) =
  Some (Z.pos (Pos.of_uint_acc d acc)).
Proof.
  revert acc.
  induction d as [|d IH|d IH|d IH|d IH|d IH|d IH|d IH|d IH|d IH|d IH];
    intros acc; cbn [NilEmpty.string_of_uint digits Pos.of_uint_acc];
    [reflexivity| ..];
    change (isDigit _) with true; cbv iota;
    rewrite <- IH; f_equal; unfold digitVal;
    match goal with
    | |- context [Z.of_nat ?n] =>
        let v := eval vm_compute in (Z.of_nat n) in change (Z.of_nat n) with v
    end; lia.
Qed.

Lemma digits_of_uint (d : Decimal.uint) :
  digits (NilEmpty.string_of_uint d) 0 = Some (Z.of_N (Pos.of_uint d)).
Proof.
  induction d as [|d IH|d IH|d IH|d IH|d IH|d IH|d IH|d IH|d IH|d IH];
    cbn [NilEmpty.string_of_uint digits Pos.of_uint];
    [reflexivity| assumption | ..];
    change (isDigit _) with true; cbv iota;
    apply (digits_of_uint_acc d).
Qed.

Lemma digits_to_uint (p : positive) :
  digits (NilEmpty.string_of_uint (Pos.to_uint p)) 0 = Some (Z.pos p).
Proof.
  rewrite digits_of_uint, DecimalPos.Unsigned.of_to. reflexivity.
Qed.

Lemma to_uint_cons (p : positive) :
  exists c rest, NilEmpty.string_of_uint (Pos.to_uint p) = String c rest
                 /\ isDigit c = true.
Proof.
  pose proof (DecimalPos.Unsigned.to_uint_nonnil p) as Hnil.
  destruct (Pos.to_uint p); [congruence| ..]; cbn; eauto.
Qed.

Lemma string_of_to_uint (p : positive) :
  NilZero.string_of_uint (Pos.to_uint p) =
  NilEmpty.string_of_uint (Pos.to_uint p).
Proof.
  pose proof (DecimalPos.Unsigned.to_uint_nonnil p) as Hnil.
  unfold NilZero.string_of_uint. destruct (Pos.to_uint p); congruence.
Qed.

(** Decimal round trip on the values an [int] can hold. *)
Lemma Atoi_Itoa (i : Z) : isInt i -> Atoi (Itoa i) = inr i.
Proof.
  unfold isInt, minInt, maxInt; intros Hr.
  destruct i as [|p|p]; [reflexivity| |].
  - unfold Itoa, Atoi; cbn [Z.to_int NilZero.string_of_int].
    pose proof (digits_to_uint p) as Hd.
    destruct (to_uint_cons p) as (c & rest & Hs & Hc).
    rewrite string_of_to_uint, Hs. rewrite Hs in Hd.
    assert (Ascii.eqb c "-" = false) as ->.
    { destruct (Ascii.eqb_spec c "-") as [->|]; [discriminate Hc|reflexivity]. }
    assert (Ascii.eqb c "+" = false) as ->.
    { destruct (Ascii.eqb_spec c "+") as [->|]; [discriminate Hc|reflexivity]. }
    cbn [orb]. rewrite Hd.
    unfold minInt, maxInt.
    destruct (Z.leb_spec (- 2 ^ 63) (Z.pos p)); [|lia].
    destruct (Z.leb_spec (Z.pos p) (2 ^ 63 - 1)); [reflexivity|lia].
  - unfold Itoa, Atoi; cbn [Z.to_int NilZero.string_of_int].
    pose proof (digits_to_uint p) as Hd.
    destruct (to_uint_cons p) as (c & rest & Hs & Hc).
    rewrite string_of_to_uint, Hs. rewrite Hs in Hd.
    change (Ascii.eqb "-" "-") with true. cbn [orb]. rewrite Hd.
    unfold minInt, maxInt. change (- Z.pos p) with (Z.neg p).
    destruct (Z.leb_spec (- 2 ^ 63) (Z.neg p)); [|lia].
    destruct (Z.leb_spec (Z.neg p) (2 ^ 63 - 1)); [reflexivity|lia].
Qed.

(** What [Atoi] accepts fits an [int]. *)
Lemma Atoi_isInt (s : string) (i : Z) : Atoi s = inr i -> isInt i.
Proof.
  unfold Atoi, isInt. repeat case_match; try discriminate.
  all: intros [= <-];
    match goal with
    | H : (_ <=? _) && (_ <=? _) = true |- _ =>
        let Hlo := fresh "Hlo" in
        let Hhi := fresh "Hhi" in
        apply andb_true_iff in H as [Hlo Hhi];
        apply Z.leb_le in Hlo, Hhi; split; assumption
    end.
Qed.

(** [Atoi] never produces the badger sentinel. *)
Lemma Atoi_not_KeyNotFound (s : string) : Atoi s <> inl ErrKeyNotFound.
Proof.
  unfold Atoi. repeat case_match; discriminate.
Qed.

(** ** Severity and description mapping *)

(** C8: the severity mapping is a total function of handler and alert that
    returns the code the configured table gives the alert's ["severity"]
    label when the label is present and is a key of the table, and the
    configured default code in every other case (label absent, or value not
    in the table). *)
Theorem severityID_mapping (h : Handler) (alert : Alert) :
  (forall sev id,
      Labels alert !! "severity" = Some sev ->
      SeverityMap (config h) !! sev = Some id ->
      severityID h alert = id) /\
  (forall sev,
      Labels alert !! "severity" = Some sev ->
      SeverityMap (config h) !! sev = None ->
      severityID h alert = DefaultSeverityID (config h)) /\
  (Labels alert !! "severity" = None ->
   severityID h alert = DefaultSeverityID (config h)).
Proof.
  unfold severityID. repeat split.
  - intros sev id -> ->. reflexivity.
  - intros sev -> ->. reflexivity.
  - intros ->. reflexivity.
Qed.

Lemma severityID_mapping_witness :
  severityID (Fixtures.handler "update")
    (Fixtures.alertOf "firing" "f" {[ "severity" := "critical" ]}) = 6 /\
  severityID (Fixtures.handler "update")
    (Fixtures.alertOf "firing" "f" {[ "severity" := "page" ]}) = 4 /\
  severityID (Fixtures.handler "update") (Fixtures.alertOf "firing" "f" ∅) = 4.
Proof.
  split; [|split].
  - apply (severityID_mapping (Fixtures.handler "update")
             (Fixtures.alertOf "firing" "f" {[ "severity" := "critical" ]}))
      with (sev := "critical"); vm_compute; reflexivity.
  - apply (severityID_mapping (Fixtures.handler "update")
             (Fixtures.alertOf "firing" "f" {[ "severity" := "page" ]}))
      with (sev := "page"); vm_compute; reflexivity.
  - apply (severityID_mapping (Fixtures.handler "update")
             (Fixtures.alertOf "firing" "f" ∅)); vm_compute; reflexivity.
Defined.

Lemma add_app (key val : string) (lines : list string) :
  add key val lines =
  (lines ++ map fieldLine (List.filter nonEmpty [(key, val)]))%list.
Proof.
  unfold add, nonEmpty; cbn. destruct (String.eqb val ""); cbn.
  - symmetry; apply app_nil_r.
  - reflexivity.
Qed.

Lemma lines_cons (kv : string * string) (rest : list (string * string)) :
  map fieldLine (List.filter nonEmpty (kv :: rest)) =
  (map fieldLine (List.filter nonEmpty [kv]) ++
   map fieldLine (List.filter nonEmpty rest))%list.
Proof. cbn. destruct (nonEmpty kv); reflexivity. Qed.

Lemma append_assoc (s1 s2 s3 : string) :
  (s1 +:+ s2) +:+ s3 = s1 +:+ (s2 +:+ s3).
Proof.
  induction s1 as [|c s1 IH]; [reflexivity|].
  change (String c ((s1 +:+ s2) +:+ s3) = String c (s1 +:+ (s2 +:+ s3))).
  congruence.
Qed.

(** Appending a line adds one separator before it, unless it is the first,
    and nothing after it. *)
Lemma Join_snoc (lines : list string) (l sep : string) :
  Join (lines ++ [l])%list sep =
  match lines with
  | [] => l
  | _ => Join lines sep +:+ sep +:+ l
  end.
Proof.
  induction lines as [|x rest IH]; [reflexivity|].
  change ((x :: rest) ++ [l])%list with (x :: (rest ++ [l]))%list.
  cbn [Join]. destruct (rest ++ [l])%list as [|y ys] eqn:E.
  { destruct rest; discriminate E. }
  rewrite IH. destruct rest as [|z zs]; [reflexivity|].
  rewrite !append_assoc. reflexivity.
Qed.

Lemma alertDescription_refines (alert : Alert) :
  alertDescription alert = descriptionFor alert.
Proof.
  unfold alertDescription, descriptionFor, descriptionLines, descriptionFields.
  rewrite !add_app. rewrite !(lines_cons _ (_ :: _)).
  rewrite <- !app_assoc. reflexivity.
Qed.

(** C7: the description is one line per recognised field whose value is not
    empty, each with its literal label, in the fixed order alert name,
    severity, description, summary, hostname, instance, service, group, tier,
    load, start time, fingerprint, generator URL, joined by newlines: one
    newline before each line but the first and nothing after the last; and
    labels {alertname: X, severity: warning} with everything else empty give
    exactly "Alert: X\nSeverity: warning". *)
Theorem alertDescription_lines :
  (forall alert, alertDescription alert = descriptionFor alert) /\
  (forall alert, descriptionLines alert = [] -> alertDescription alert = "") /\
  (forall alert lines last,
      descriptionLines alert = (lines ++ [last])%list ->
      alertDescription alert =
      match lines with
      | [] => last
      | _ => Join lines LF +:+ LF +:+ last
      end) /\
  (forall status endsAt,
      alertDescription
        {| Status := status;
           Labels := {[ "alertname" := "X"; "severity" := "warning" ]};
           Annotations := ∅; StartsAt := ""; EndsAt := endsAt;
           GeneratorURL := ""; Fingerprint := "" |}
      = "Alert: X" +:+ LF +:+ "Severity: warning").
Proof.
  split; [exact alertDescription_refines|]. split; [|split].
  - intros alert H. rewrite alertDescription_refines.
    unfold descriptionFor. rewrite H. reflexivity.
  - intros alert lines last H. rewrite alertDescription_refines.
    unfold descriptionFor. rewrite H. apply Join_snoc.
  - intros status endsAt. vm_compute. reflexivity.
Qed.

Lemma alertDescription_lines_witness :
  alertDescription (Fixtures.diskFullAlert "firing") =
  "Alert: DiskFull" +:+ LF +:+ "Fingerprint: abc123".
Proof.
  destruct alertDescription_lines as (_ & _ & H & _).
  apply (H (Fixtures.diskFullAlert "firing") ["Alert: DiskFull"]).
  vm_compute. reflexivity.
Defined.

(** ** The client's error contract *)

Section ClientFacts.
Context `{lib : Lib}.

Lemma do_inl_iff (c : IRISClient) (env : Env) (method path : string)
    (body : option string) (cid : Z) :
  (exists err, do c env method path body cid = inl err) <->
  doFails c env method path body cid.
Proof.
  unfold doFails, badAnswer, do, NewRequest, sentRequest; cbn [URL].
  destruct (NewRequest_check method _) as [e0|] eqn:E0.
  { split; [intros _; left; eauto | intros _; eauto]. }
  cbn [Header_Set Method URL Header Body].
  destruct (RoundTrip env _) as [e1|resp] eqn:E1.
  { split; [intros _; right; left; eauto | intros _; eauto]. }
  destruct (ReadAll resp) as [e2|respBody] eqn:E2.
  { split; [intros _; right; right; eauto 7 | intros _; eauto]. }
  destruct (Z.leb_spec 400 (StatusCode resp)) as [Hs|Hs].
  { split; [intros _; right; right; eauto 7 | intros _; eauto]. }
  destruct (Unmarshal_IRISResponse respBody) as [e3|irisResp] eqn:E3.
  { split; [intros _; right; right; eauto 10 | intros _; eauto]. }
  destruct (String.eqb_spec (resp_Status irisResp) "success") as [He|He];
    cbn [negb].
  - split; [intros [err H]; discriminate H|].
    intros [[err H]|[[err H]|(resp' & H & Hbad)]]; try discriminate H.
    injection H as <-.
    destruct Hbad as [[err H]|[H|(b & Hb & H)]].
    + congruence.
    + lia.
    + rewrite E2 in Hb; injection Hb as <-. rewrite E3 in H.
      destruct H as [[err H]|(r & H & Hr)]; [discriminate H|].
      injection H as <-. contradiction.
  - split; [intros _; right; right; eauto 12 | intros _; eauto].
Qed.

(** C6 (as amended): every remote call goes through [do], which returns an
    error exactly when the request cannot be built, the transport fails,
    the body cannot be read, the HTTP status is 400 or more, the body does
    not parse, or the envelope status is not "success".  [DeleteAlert]
    fails exactly then; [UpdateAlert] also when its request does not
    marshal; [CreateAlert] also when its request does not marshal or the
    envelope's data does not decode to an alert id. *)
Theorem client_error_iff (c : IRISClient) (env : Env) (cid : Z) :
  (forall method path body,
      (exists err, do c env method path body cid = inl err) <->
      doFails c env method path body cid) /\
  (forall alertID,
      (exists err, DeleteAlert_result c env alertID cid = Some err) <->
      doFails c env "POST" ("/alerts/delete/" +:+ Itoa alertID) None cid) /\
  (forall alertID req,
      (exists err, UpdateAlert_result c env alertID req cid = Some err) <->
      (exists err, Marshal_IRISAlertUpdateRequest req = inl err) \/
      (exists body,
          Marshal_IRISAlertUpdateRequest req = inr body /\
          doFails c env "POST" ("/alerts/update/" +:+ Itoa alertID)
            (Some body) cid)) /\
  (forall req,
      (exists err, CreateAlert_result c env req cid = inl err) <->
      (exists err, Marshal_IRISAlertRequest req = inl err) \/
      (exists body,
          Marshal_IRISAlertRequest req = inr body /\
          (doFails c env "POST" "/alerts/add" (Some body) cid \/
           exists resp err,
             do c env "POST" "/alerts/add" (Some body) cid = inr resp /\
             Unmarshal_IRISAlertData (resp_Data resp) = inl err))).
Proof.
  split; [intros; apply do_inl_iff|]. split; [|split].
  - intros alertID. rewrite <- do_inl_iff. unfold DeleteAlert_result.
    destruct (do _ _ _ _ _ _) as [e|r]; split.
    + eauto.
    + eauto.
    + intros [err H]; discriminate H.
    + intros [err H]; discriminate H.
  - intros alertID req. unfold UpdateAlert_result.
    destruct (Marshal_IRISAlertUpdateRequest req) as [e|body].
    { split; [intros _; left; eauto | intros _; eauto]. }
    split.
    + intros [err H]. right. exists body. split; [reflexivity|].
      apply do_inl_iff. destruct (do _ _ _ _ _ _); [eauto|discriminate H].
    + intros [[err H]|(b & Hb & H)]; [discriminate H|].
      injection Hb as <-. apply do_inl_iff in H as [err ->]. eauto.
  - intros req. unfold CreateAlert_result.
    destruct (Marshal_IRISAlertRequest req) as [e|body].
    { split; [intros _; left; eauto | intros _; eauto]. }
    split.
    + intros [err H]. right. exists body. split; [reflexivity|].
      destruct (do _ _ _ _ _ _) as [e|resp] eqn:E.
      * left. apply do_inl_iff. rewrite E. eauto.
      * right. destruct (Unmarshal_IRISAlertData _) eqn:E'; [|discriminate H].
        eauto.
    + intros [[err H]|(b & Hb & H)]; [discriminate H|].
      injection Hb as <-.
      destruct H as [H|(resp & err & -> & ->)]; [|eauto].
      apply do_inl_iff in H as [err ->]. eauto.
Qed.

End ClientFacts.

(** C6, as stated, fails: a 300 answer is not 2xx, yet with a well-formed
    "success" envelope [do], and with it the update and the delete call,
    return no error. *)
Lemma do_accepts_status_300 :
  let c := iris (Fixtures.handler "update") in
  let env := Fixtures.answering 300 "success" in
  let req := @sentRequest c "POST" "/alerts/delete/42" None 1 in
  (exists resp, RoundTrip env req = inr resp /\
                ~ (200 <= StatusCode resp < 300)) /\
  @do Fixtures.stubLib c env "POST" "/alerts/delete/42" None 1 =
    inr {| resp_Status := "success"; resp_Data := "42"; resp_Msg := "" |} /\
  @DeleteAlert_result Fixtures.stubLib c env 42 1 = None /\
  @UpdateAlert_result Fixtures.stubLib c env 42 (statusOnly 6) 1 = None.
Proof.
  cbv zeta. split; [|split; [|split]].
  - eexists. split; [reflexivity|]. cbn. lia.
  - vm_compute. reflexivity.
  - vm_compute. reflexivity.
  - vm_compute. reflexivity.
Qed.

Lemma client_error_iff_witness :
  exists err,
    @DeleteAlert_result Fixtures.stubLib (iris (Fixtures.handler "update"))
      Fixtures.serverDown 42 1 = Some err.
Proof.
  destruct (@client_error_iff Fixtures.stubLib (iris (Fixtures.handler "update"))
              Fixtures.serverDown 1) as (_ & H & _).
  apply H. right. right. eexists. split; [reflexivity|].
  right. left. cbn. lia.
Defined.

(** ** The reconciler, step by step *)

Section ReconcilerFacts.
Context `{lib : Lib}.
Implicit Types (h : Handler) (env : Env) (alert : Alert).
Implicit Types (db : gmap string string) (fp : string) (id : Z).

Lemma Untracked_iff env db fp :
  Untracked env db fp <-> view_fault env = None /\ db !! dbKey fp = None.
Proof.
  unfold Untracked, getAlertID; cbn [result].
  destruct (view_fault env) as [msg|].
  { split; [discriminate | intros [H _]; discriminate H]. }
  destruct (db !! dbKey fp) as [val|].
  - split; [|intros [_ H]; discriminate H].
    intros H. destruct (Atoi_not_KeyNotFound val H).
  - split; auto.
Qed.

Lemma Tracked_iff env db fp id :
  Tracked env db fp id <->
  view_fault env = None /\
  exists val, db !! dbKey fp = Some val /\ Atoi val = inr id.
Proof.
  unfold Tracked, getAlertID; cbn [result].
  destruct (view_fault env) as [msg|].
  { split; [discriminate | intros [H _]; discriminate H]. }
  destruct (db !! dbKey fp) as [val|].
  - split; [eauto|]. intros (_ & v & [= <-] & H). exact H.
  - split; [discriminate|]. intros (_ & v & H & _). discriminate H.
Qed.

Ltac step :=
  unfold mbind, M_bind, mret, M_ret, slog, emit, CreateAlert, UpdateAlert,
    DeleteAlert, storeAlertID, deleteAlertID;
  cbv zeta; cbn [result store events app].

Lemma createAlert_run h env alert db :
  createAlert h env alert db =
  let req := createRequest h alert in
  let cid := CustomerID (config h) in
  let key := dbKey (Fingerprint alert) in
  match CreateAlert_result (iris h) env req cid with
  | inl err =>
      mkOut (Some (Errorf "create iris alert" err)) db
        [EvCreateAlert req cid (inl err)]
  | inr alertID =>
      match update_fault env with
      | Some msg =>
          mkOut (Some (Errorf "store alert mapping" (ErrText msg))) db
            [EvCreateAlert req cid (inr alertID);
             EvSet key (Itoa alertID) (Some (ErrText msg))]
      | None =>
          mkOut None (<[key := Itoa alertID]> db)
            [EvCreateAlert req cid (inr alertID);
             EvSet key (Itoa alertID) None;
             EvLog LevelInfo "created iris alert"
               [AString "fingerprint" (Fingerprint alert);
                AInt "alert_id" alertID]]
      end
  end.
Proof.
  unfold createAlert; step.
  destruct (CreateAlert_result _ _ _ _) as [err|alertID]; step;
    [reflexivity|].
  destruct (update_fault env); reflexivity.
Qed.

Lemma updateAlert_run h env id alert db :
  updateAlert h env id alert db =
  let req := updateRequest h alert in
  let cid := CustomerID (config h) in
  match UpdateAlert_result (iris h) env id req cid with
  | Some err =>
      mkOut (Some (Errorf ("update iris alert " +:+ Itoa id) err)) db
        [EvUpdateAlert id req cid (Some err)]
  | None =>
      mkOut None db
        [EvUpdateAlert id req cid None;
         EvLog LevelInfo "updated iris alert"
           [AString "fingerprint" (Fingerprint alert); AInt "alert_id" id]]
  end.
Proof.
  unfold updateAlert; step.
  destruct (UpdateAlert_result _ _ _ _ _); reflexivity.
Qed.

Lemma resolveAlert_delete_run h env id alert db :
  ResolvedAction (config h) = "delete" ->
  resolveAlert h env id alert db =
  let cid := CustomerID (config h) in
  match DeleteAlert_result (iris h) env id cid with
  | Some err =>
      mkOut (Some (Errorf ("delete iris alert " +:+ Itoa id) err)) db
        [EvDeleteAlert id cid (Some err)]
  | None =>
      resolved_tail env alert db (EvDeleteAlert id cid None) "deleted iris alert" id
  end.
Proof.
  intros Ha. unfold resolveAlert, resolved_tail. rewrite Ha.
  change (String.eqb "delete" "delete") with true. step.
  destruct (DeleteAlert_result _ _ _ _); step; [reflexivity|].
  destruct (update_fault env); reflexivity.
Qed.

Lemma resolveAlert_update_run h env id alert db :
  ResolvedAction (config h) <> "delete" ->
  resolveAlert h env id alert db =
  let cid := CustomerID (config h) in
  let req := statusOnly (StatusIDResolved (config h)) in
  match UpdateAlert_result (iris h) env id req cid with
  | Some err =>
      mkOut (Some (Errorf ("resolve iris alert " +:+ Itoa id) err)) db
        [EvUpdateAlert id req cid (Some err)]
  | None =>
      resolved_tail env alert db (EvUpdateAlert id req cid None)
        "resolved iris alert" id
  end.
Proof.
  intros Ha. unfold resolveAlert, resolved_tail.
  destruct (String.eqb_spec (ResolvedAction (config h)) "delete") as [E|_];
    [contradiction|].
  step. destruct (UpdateAlert_result _ _ _ _ _); step; [reflexivity|].
  destruct (update_fault env); reflexivity.
Qed.

Lemma processAlert_untracked h env alert db :
  Untracked env db (Fingerprint alert) ->
  processAlert h env alert db =
  let fp := Fingerprint alert in
  after_view (dbKey fp) (inl ErrKeyNotFound)
    (if String.eqb (Status alert) "firing" then createAlert h env alert db
     else if String.eqb (Status alert) "resolved" then
       mkOut None db
         [EvLog LevelWarn "resolved alert not found in db, skipping"
            [AString "fingerprint" fp]]
     else
       mkOut None db
         [EvLog LevelWarn "unknown alert status"
            [AString "status" (Status alert); AString "fingerprint" fp]]).
Proof.
  intros Hu. unfold processAlert, after_view. step.
  assert (getAlertID env (Fingerprint alert) db =
          mkOut (inl ErrKeyNotFound) db
            [EvView (dbKey (Fingerprint alert)) (inl ErrKeyNotFound)]) as ->.
  { unfold Untracked in Hu. unfold getAlertID in *. cbn [result] in Hu.
    rewrite Hu. reflexivity. }
  cbn [result store events].
  rewrite bool_decide_false by (intros H; apply H; reflexivity).
  destruct (String.eqb (Status alert) "firing"); [reflexivity|].
  destruct (String.eqb (Status alert) "resolved"); reflexivity.
Qed.

Lemma processAlert_tracked h env alert db id :
  Tracked env db (Fingerprint alert) id ->
  processAlert h env alert db =
  let fp := Fingerprint alert in
  after_view (dbKey fp) (inr id)
    (if String.eqb (Status alert) "firing" then updateAlert h env id alert db
     else if String.eqb (Status alert) "resolved" then
       resolveAlert h env id alert db
     else
       mkOut None db
         [EvLog LevelWarn "unknown alert status"
            [AString "status" (Status alert); AString "fingerprint" fp]]).
Proof.
  intros Ht. unfold processAlert, after_view. step.
  assert (getAlertID env (Fingerprint alert) db =
          mkOut (inr id) db [EvView (dbKey (Fingerprint alert)) (inr id)]) as ->.
  { unfold Tracked in Ht. unfold getAlertID in *. cbn [result] in Ht.
    rewrite Ht. reflexivity. }
  cbn [result store events].
  destruct (String.eqb (Status alert) "firing"); [reflexivity|].
  destruct (String.eqb (Status alert) "resolved"); reflexivity.
Qed.

(** Any other lookup failure ends the step at once. *)
Lemma processAlert_lookup_failed h env alert db err :
  result (getAlertID env (Fingerprint alert) db) = inl err ->
  err <> ErrKeyNotFound ->
  processAlert h env alert db =
  mkOut (Some (Errorf "db lookup" err)) db
    [EvView (dbKey (Fingerprint alert)) (inl err)].
Proof.
  intros Hr Hne. unfold processAlert. step.
  assert (getAlertID env (Fingerprint alert) db =
          mkOut (inl err) db [EvView (dbKey (Fingerprint alert)) (inl err)])
    as ->.
  { unfold getAlertID in *. cbn [result] in Hr. rewrite Hr. reflexivity. }
  cbn [result store events]. rewrite bool_decide_true by exact Hne.
  reflexivity.
Qed.


Lemma lookup_cases env db fp :
  Untracked env db fp \/
  (exists id, Tracked env db fp id) \/
  (exists err, result (getAlertID env fp db) = inl err /\
               err <> ErrKeyNotFound).
Proof.
  unfold Untracked, Tracked.
  destruct (result (getAlertID env fp db)) as [err|id]; [|eauto].
  destruct (decide (err = ErrKeyNotFound)) as [->|Hne]; eauto.
Qed.

(** Every way one alert can go, with the outcome written out. *)
Ltac all_runs h env alert db :=
  let id := fresh "id" in
  destruct (lookup_cases env db (Fingerprint alert))
    as [Hu|[[id Ht]|(lerr & Hl & Hne)]];
  [ rewrite (processAlert_untracked h env alert db Hu); cbv zeta;
    destruct (String.eqb (Status alert) "firing") eqn:Hf;
    [ rewrite createAlert_run; cbv zeta;
      destruct (CreateAlert_result _ _ _ _) as [cerr|newID] eqn:Hc;
      [|destruct (update_fault env) as [msg|] eqn:Hw]
    | destruct (String.eqb (Status alert) "resolved") eqn:Hr ]
  | rewrite (processAlert_tracked h env alert db id Ht); cbv zeta;
    destruct (String.eqb (Status alert) "firing") eqn:Hf;
    [ rewrite updateAlert_run; cbv zeta;
      destruct (UpdateAlert_result _ _ _ _ _) as [uerr|] eqn:Hc
    | destruct (String.eqb (Status alert) "resolved") eqn:Hr;
      [ destruct (decide (ResolvedAction (config h) = "delete")) as [Ha|Ha];
        [ rewrite (resolveAlert_delete_run h env id alert db Ha); cbv zeta;
          destruct (DeleteAlert_result _ _ _ _) as [derr|] eqn:Hc;
          [|unfold resolved_tail;
            destruct (update_fault env) as [msg|] eqn:Hw]
        | rewrite (resolveAlert_update_run h env id alert db Ha); cbv zeta;
          destruct (UpdateAlert_result _ _ _ _ _) as [uerr|] eqn:Hc;
          [|unfold resolved_tail;
            destruct (update_fault env) as [msg|] eqn:Hw] ]
      | ] ]
  | rewrite (processAlert_lookup_failed h env alert db lerr Hl Hne) ];
  unfold after_view; cbn [result store events].

Lemma writesGuarded_sound (evs : list Event) (seen : bool) :
  writesGuarded seen evs = true ->
  forall pre e post,
    evs = (pre ++ e :: post)%list -> isIndexWrite e = true ->
    seen = true \/ exists c, c ∈ pre /\ remoteSucceeded c = true.
Proof.
  revert seen. induction evs as [|x evs IH]; intros seen Hg pre e post He Hw.
  { destruct pre; discriminate He. }
  cbn [writesGuarded] in Hg. apply andb_true_iff in Hg as [Hx Hrest].
  destruct pre as [|p pre]; cbn in He; injection He as -> ->.
  - rewrite Hw in Hx. left. exact Hx.
  - destruct (IH _ Hrest pre e post eq_refl Hw) as [Hs|(c & Hc & Hok)].
    + apply orb_true_iff in Hs as [Hs|Hs]; [left; exact Hs|].
      right. exists p. split; [left|exact Hs].
    + right. exists c. split; [right; exact Hc|exact Hok].
Qed.

Lemma viewedKeys_app (l1 l2 : list Event) :
  viewedKeys (l1 ++ l2) = (viewedKeys l1 ++ viewedKeys l2)%list.
Proof.
  induction l1 as [|e l1 IH]; [reflexivity|].
  destruct e; cbn; rewrite ?IH; reflexivity.
Qed.

Lemma processAlert_views h env alert db :
  viewedKeys (events (processAlert h env alert db)) =
  [dbKey (Fingerprint alert)].
Proof. all_runs h env alert db; reflexivity. Qed.

Lemma rangeAlerts_cons h envs i alert rest db :
  rangeAlerts h envs i (alert :: rest) db =
  let oa := processAlert h (envs i) alert db in
  let o2 := rangeAlerts h envs (S i) rest (store oa) in
  mkOut tt (store o2)
    (events oa ++ failureLog alert (result oa) ++ events o2).
Proof.
  cbn [rangeAlerts]. step.
  destruct (result (processAlert h (envs i) alert db)) as [err|];
    step; cbn [failureLog app];
    destruct (rangeAlerts h envs (S i) rest _) as [[] st evs];
    cbn [result store events]; rewrite <- ?app_assoc; reflexivity.
Qed.

Lemma rangeAlerts_app h envs i before rest db :
  rangeAlerts h envs i (before ++ rest) db =
  let o1 := rangeAlerts h envs i before db in
  let o2 := rangeAlerts h envs (i + length before) rest (store o1) in
  mkOut tt (store o2) (events o1 ++ events o2).
Proof.
  revert i db. induction before as [|a before IH]; intros i db.
  - cbn [app length rangeAlerts]. step. rewrite Nat.add_0_r.
    destruct (rangeAlerts h envs i rest db) as [[] st evs]. reflexivity.
  - change ((a :: before) ++ rest)%list with (a :: (before ++ rest))%list.
    rewrite !rangeAlerts_cons. cbv zeta. rewrite IH. cbv zeta.
    cbn [result store events length].
    replace (S i + length before)%nat with (i + S (length before))%nat by lia.
    rewrite <- !app_assoc. reflexivity.
Qed.

Lemma rangeAlerts_views h envs i alerts db :
  viewedKeys (events (rangeAlerts h envs i alerts db)) =
  map (fun a => dbKey (Fingerprint a)) alerts.
Proof.
  revert i db. induction alerts as [|a alerts IH]; intros i db;
    [reflexivity|].
  rewrite rangeAlerts_cons. cbv zeta. cbn [events map].
  rewrite !viewedKeys_app, processAlert_views, IH.
  destruct (result (processAlert h (envs i) a db)); reflexivity.
Qed.

(** The index writes among the events of a step are all it does to the
    store. *)
Lemma processAlert_replay h env alert db :
  replay db (events (processAlert h env alert db)) =
  store (processAlert h env alert db).
Proof. all_runs h env alert db; reflexivity. Qed.

Lemma processAlert_setsFresh h env alert db :
  setsFresh db (events (processAlert h env alert db)) = true.
Proof.
  all_runs h env alert db; try reflexivity;
    apply Untracked_iff in Hu as [_ Hk]; cbn [setsFresh replay];
    rewrite bool_decide_true by exact Hk; reflexivity.
Qed.

Lemma replay_app (db : gmap string string) (l1 l2 : list Event) :
  replay db (l1 ++ l2) = replay (replay db l1) l2.
Proof.
  revert db. induction l1 as [|e l1 IH]; intros db; [reflexivity|].
  destruct e as [| ? ? [?|] | ? [?|] | | | |]; cbn [app replay]; apply IH.
Qed.

Lemma setsFresh_app (db : gmap string string) (l1 l2 : list Event) :
  setsFresh db (l1 ++ l2) = setsFresh db l1 && setsFresh (replay db l1) l2.
Proof.
  revert db. induction l1 as [|e l1 IH]; intros db; [reflexivity|].
  destruct e as [| ? ? [?|] | ? [?|] | | | |]; cbn [app setsFresh replay];
    rewrite IH; try reflexivity; apply andb_assoc.
Qed.

Lemma failureLog_replay (db : gmap string string) alert (err : option error) :
  replay db (failureLog alert err) = db.
Proof. destruct err; reflexivity. Qed.

Lemma failureLog_setsFresh (db : gmap string string) alert (err : option error) :
  setsFresh db (failureLog alert err) = true.
Proof. destruct err; reflexivity. Qed.

(** Over a whole batch too, the events account for the store, and no
    [txn.Set] hits a key the index holds at that moment. *)
Lemma rangeAlerts_replay_fresh h envs i alerts db :
  replay db (events (rangeAlerts h envs i alerts db)) =
    store (rangeAlerts h envs i alerts db) /\
  setsFresh db (events (rangeAlerts h envs i alerts db)) = true.
Proof.
  revert i db. induction alerts as [|a alerts IH]; intros i db;
    [split; reflexivity|].
  rewrite rangeAlerts_cons; cbv zeta; cbn [store events].
  destruct (IH (S i) (store (processAlert h (envs i) a db))) as [IHr IHf].
  rewrite !replay_app, !setsFresh_app, ?replay_app.
  rewrite processAlert_replay, processAlert_setsFresh.
  rewrite failureLog_replay, failureLog_setsFresh, IHr, IHf.
  split; reflexivity.
Qed.

(** ** The lifecycle transitions *)

(** C1 (as amended): a "firing" alert whose fingerprint the index reports
    as absent causes exactly one remote call, a create; when that call
    succeeds and the index write succeeds too, the step returns no error
    and the index gains exactly one entry, from the fingerprint to the
    returned id (which the next lookup reads back); when the write fails
    the index is as before and the step returns the error. *)
Theorem firing_untracked_creates h env alert db :
  Status alert = "firing" ->
  Untracked env db (Fingerprint alert) ->
  let out := processAlert h env alert db in
  let cid := CustomerID (config h) in
  let req := createRequest h alert in
  let res := CreateAlert_result (iris h) env req cid in
  let key := dbKey (Fingerprint alert) in
  remoteCalls (events out) = [EvCreateAlert req cid res] /\
  db !! key = None /\
  (forall alertID,
      res = inr alertID -> update_fault env = None ->
      result out = None /\
      store out = <[key := Itoa alertID]> db /\
      (isInt alertID -> Tracked env (store out) (Fingerprint alert) alertID)) /\
  (forall alertID,
      res = inr alertID -> update_fault env <> None ->
      is_Some (result out) /\ store out = db).
Proof.
  intros Hs Hu. cbv zeta.
  pose proof (proj1 (Untracked_iff _ _ _) Hu) as [Hv Hk].
  rewrite (processAlert_untracked h env alert db Hu); cbv zeta.
  rewrite Hs. change (String.eqb "firing" "firing") with true. cbv iota.
  rewrite createAlert_run; cbv zeta. unfold after_view.
  destruct (CreateAlert_result _ _ _ _) as [cerr|newID] eqn:Hc.
  { cbn [result store events].
    split; [reflexivity|]. split; [exact Hk|].
    split; intros alertID Hres; discriminate Hres. }
  destruct (update_fault env) as [msg|] eqn:Hw; cbn [result store events].
  - split; [reflexivity|]. split; [exact Hk|]. split.
    + intros alertID _ Hnone. discriminate Hnone.
    + intros alertID _ _. split; [eauto|reflexivity].
  - split; [reflexivity|]. split; [exact Hk|]. split.
    + intros alertID [= <-] _. split; [reflexivity|]. split; [reflexivity|].
      intros Hint. apply Tracked_iff. split; [exact Hv|].
      exists (Itoa newID). split; [apply lookup_insert_eq|].
      apply Atoi_Itoa, Hint.
    + intros alertID _ Hne. contradiction.
Qed.

(** C2 (as amended): a "firing" alert whose fingerprint the index maps to
    [id] causes exactly one remote call, an update addressed to [id] (never
    a create), and leaves the index as it was; and as long as alerts are
    reconciled one at a time (no write of another request between an
    alert's lookup and its own write), no entry the index held before a step
    is replaced by a different value (it is kept or removed), and a
    [txn.Set] is only attempted on a key the index does not hold, in a step
    and at every moment of a whole batch. *)
Theorem firing_tracked_updates h env alert db :
  let out := processAlert h env alert db in
  let cid := CustomerID (config h) in
  (forall id,
      Status alert = "firing" ->
      Tracked env db (Fingerprint alert) id ->
      remoteCalls (events out) =
        [EvUpdateAlert id (updateRequest h alert) cid
           (UpdateAlert_result (iris h) env id (updateRequest h alert) cid)] /\
      store out = db) /\
  (forall key val,
      db !! key = Some val ->
      store out !! key = Some val \/ store out !! key = None) /\
  (forall key val err,
      EvSet key val err ∈ events out -> db !! key = None) /\
  (forall envs i alerts,
      setsFresh db (events (rangeAlerts h envs i alerts db)) = true).
Proof.
  cbv zeta. split; [|split; [|split]]; [| | |intros; apply rangeAlerts_replay_fresh].
  - intros id Hs Ht.
    rewrite (processAlert_tracked h env alert db id Ht); cbv zeta.
    rewrite Hs. change (String.eqb "firing" "firing") with true. cbv iota.
    rewrite updateAlert_run; cbv zeta. unfold after_view.
    destruct (UpdateAlert_result _ _ _ _ _); cbn [result store events];
      split; reflexivity.
  - intros key val Hkv.
    all_runs h env alert db; try (left; exact Hkv).
    + (* created: the key was absent *)
      apply Untracked_iff in Hu as [_ Hk].
      left. rewrite lookup_insert_ne; [exact Hkv|]. congruence.
    + destruct (decide (key = dbKey (Fingerprint alert))) as [->|Hne'].
      * right. apply lookup_delete_eq.
      * left. rewrite lookup_delete_ne by congruence. exact Hkv.
    + destruct (decide (key = dbKey (Fingerprint alert))) as [->|Hne'].
      * right. apply lookup_delete_eq.
      * left. rewrite lookup_delete_ne by congruence. exact Hkv.
  - intros key val err Hin.
    assert (setsFresh db (events (processAlert h env alert db)) = true) as Hfresh
      by apply processAlert_setsFresh.
    revert Hin Hfresh.
    all_runs h env alert db; intros Hin Hfresh;
      repeat match goal with
        | H : _ ∈ [] |- _ => inversion H
        | H : _ ∈ _ :: _ |- _ =>
            apply elem_of_cons in H as [H|H]; [try discriminate H|]
        end;
      injection Hin as -> -> ->; apply Untracked_iff in Hu as [_ Hk]; exact Hk.
Qed.

(** C3 (as amended): a "resolved" alert whose fingerprint the index maps to
    [id] causes exactly one remote call, addressed to [id]: a delete when
    the configured action is "delete", otherwise an update that sets only
    the status, to the configured resolved code.  When that call succeeds
    and the index delete succeeds, the entry is removed and no error is
    returned; when the call fails, or the index delete fails, the index is
    as before and an error is returned. *)
Theorem resolved_tracked_resolves h env alert db id :
  Status alert = "resolved" ->
  Tracked env db (Fingerprint alert) id ->
  let out := processAlert h env alert db in
  let cid := CustomerID (config h) in
  let key := dbKey (Fingerprint alert) in
  let call :=
    if String.eqb (ResolvedAction (config h)) "delete"
    then EvDeleteAlert id cid (DeleteAlert_result (iris h) env id cid)
    else
      let req := statusOnly (StatusIDResolved (config h)) in
      EvUpdateAlert id req cid (UpdateAlert_result (iris h) env id req cid) in
  remoteCalls (events out) = [call] /\
  (remoteSucceeded call = true -> update_fault env = None ->
   result out = None /\ store out = delete key db /\
   store out !! key = None) /\
  (remoteSucceeded call = true -> update_fault env <> None ->
   is_Some (result out) /\ store out = db) /\
  (remoteFailed call = true -> is_Some (result out) /\ store out = db).
Proof.
  intros Hs Ht. cbv zeta.
  rewrite (processAlert_tracked h env alert db id Ht); cbv zeta.
  rewrite Hs. change (String.eqb "resolved" "firing") with false.
  change (String.eqb "resolved" "resolved") with true. cbv iota.
  unfold after_view.
  destruct (String.eqb_spec (ResolvedAction (config h)) "delete") as [Ha|Ha].
  - rewrite (resolveAlert_delete_run h env id alert db Ha); cbv zeta.
    destruct (DeleteAlert_result _ _ _ _) as [derr|];
      [|unfold resolved_tail; destruct (update_fault env) as [msg|]];
      cbn [result store events remoteSucceeded remoteFailed];
      repeat split; try discriminate; try congruence; eauto;
      intros; apply lookup_delete_eq.
  - rewrite (resolveAlert_update_run h env id alert db Ha); cbv zeta.
    destruct (UpdateAlert_result _ _ _ _ _) as [uerr|];
      [|unfold resolved_tail; destruct (update_fault env) as [msg|]];
      cbn [result store events remoteSucceeded remoteFailed];
      repeat split; try discriminate; try congruence; eauto;
      intros; apply lookup_delete_eq.
Qed.

(** C4: a "resolved" alert whose fingerprint the index reports as absent
    causes no remote call and no index write, leaves the index as it was
    and returns no error; so once a "resolved" alert was reconciled without
    error from a tracked fingerprint, the index holds no entry for it, and
    the same alert again causes no remote call and no index write and, its
    lookup being served, returns no error. *)
Theorem resolved_untracked_noop h alert db :
  Status alert = "resolved" ->
  (forall env,
      Untracked env db (Fingerprint alert) ->
      let out := processAlert h env alert db in
      result out = None /\ store out = db /\
      remoteCalls (events out) = [] /\
      List.filter isIndexWrite (events out) = []) /\
  (forall env1 env2 id,
      Tracked env1 db (Fingerprint alert) id ->
      let out1 := processAlert h env1 alert db in
      result out1 = None ->
      let out2 := processAlert h env2 alert (store out1) in
      store out1 !! dbKey (Fingerprint alert) = None /\
      store out2 = store out1 /\
      remoteCalls (events out2) = [] /\
      List.filter isIndexWrite (events out2) = [] /\
      (view_fault env2 = None ->
       Untracked env2 (store out1) (Fingerprint alert) /\ result out2 = None)).
Proof.
  intros Hs.
  assert (forall env db',
             Untracked env db' (Fingerprint alert) ->
             let out := processAlert h env alert db' in
             result out = None /\ store out = db' /\
             remoteCalls (events out) = [] /\
             List.filter isIndexWrite (events out) = []) as Hnoop.
  { intros env db' Hu. cbv zeta.
    rewrite (processAlert_untracked h env alert db' Hu); cbv zeta.
    rewrite Hs. change (String.eqb "resolved" "firing") with false.
    change (String.eqb "resolved" "resolved") with true. cbv iota.
    unfold after_view; cbn. repeat split. }
  split; [intros env; apply Hnoop|].
  intros env1 env2 id Ht out1 Hok out2.
  assert (store out1 !! dbKey (Fingerprint alert) = None) as Hgone.
  { subst out1. revert Hok.
    rewrite (processAlert_tracked h env1 alert db id Ht); cbv zeta.
    rewrite Hs. change (String.eqb "resolved" "firing") with false.
    change (String.eqb "resolved" "resolved") with true. cbv iota.
    unfold after_view.
    destruct (decide (ResolvedAction (config h) = "delete")) as [Ha|Ha].
    - rewrite (resolveAlert_delete_run h env1 id alert db Ha); cbv zeta.
      destruct (DeleteAlert_result _ _ _ _) as [derr|];
        [|unfold resolved_tail; destruct (update_fault env1) as [msg|]];
        cbn [result store events]; try discriminate.
      intros _. apply lookup_delete_eq.
    - rewrite (resolveAlert_update_run h env1 id alert db Ha); cbv zeta.
      destruct (UpdateAlert_result _ _ _ _ _) as [uerr|];
        [|unfold resolved_tail; destruct (update_fault env1) as [msg|]];
        cbn [result store events]; try discriminate.
      intros _. apply lookup_delete_eq. }
  split; [exact Hgone|].
  destruct (view_fault env2) as [msg|] eqn:Hv2.
  - (* the lookup itself fails: the step ends there *)
    subst out2.
    rewrite (processAlert_lookup_failed h env2 alert (store out1) (ErrText msg));
      [|unfold getAlertID; cbn [result]; rewrite Hv2; reflexivity|discriminate].
    cbn [result store events].
    split; [reflexivity|]. split; [reflexivity|]. split; [reflexivity|].
    intros Hnone; discriminate Hnone.
  - assert (Untracked env2 (store out1) (Fingerprint alert)) as Hu2
      by (apply Untracked_iff; split; assumption).
    destruct (Hnoop env2 (store out1) Hu2) as (Hres & Hst & Hcalls & Hwrites).
    subst out2. repeat split; assumption.
Qed.

(** C5: in the reconciliation of one alert, every index write comes after
    a remote call that succeeded, and the index changes only through such
    a write; when the remote call (create, update or delete) returns an
    error, the step returns an error, attempts no index write and leaves
    the index exactly as it was. *)
Theorem remote_call_before_index_write h env alert db :
  let out := processAlert h env alert db in
  (forall pre e post,
      events out = (pre ++ e :: post)%list -> isIndexWrite e = true ->
      exists c, c ∈ pre /\ remoteSucceeded c = true) /\
  (store out <> db ->
   exists e, e ∈ events out /\ isIndexWrite e = true) /\
  (forall c,
      c ∈ events out -> remoteFailed c = true ->
      is_Some (result out) /\ store out = db /\
      List.filter isIndexWrite (events out) = []).
Proof.
  cbv zeta. split; [|split].
  - intros pre e post Hsplit Hwrite.
    assert (writesGuarded false (events (processAlert h env alert db)) = true)
      as Hg by (all_runs h env alert db; reflexivity).
    destruct (writesGuarded_sound _ _ Hg pre e post Hsplit Hwrite) as [H|H];
      [discriminate H|exact H].
  - intros Hchanged.
    assert (existsb isIndexWrite (events (processAlert h env alert db)) = true)
      as Hex.
    { revert Hchanged. all_runs h env alert db; intros Hchanged;
        try (destruct Hchanged; reflexivity); reflexivity. }
    apply existsb_exists in Hex as (e & Hin & Hwrite).
    exists e. split; [apply list_elem_of_In, Hin|exact Hwrite].
  - intros c.
    all_runs h env alert db; intros Hin Hfail;
      repeat match goal with
        | H : _ ∈ [] |- _ => inversion H
        | H : _ ∈ _ :: _ |- _ =>
            apply elem_of_cons in H as [->|H]; [try discriminate Hfail|]
        end;
      repeat split; eauto.
Qed.

(** C10 (as amended): with any configured action other than "delete" (the
    empty string and unknown words included), resolving a tracked alert
    goes exactly as with "update": one remote call, an update that sets
    only the status, to the configured resolved code, and no delete call;
    when that call succeeds and the index delete succeeds the entry is
    removed; when the call fails, or the index delete fails, the index is
    as before and an error is returned. *)
Theorem resolved_action_other_than_delete h env alert db id :
  ResolvedAction (config h) <> "delete" ->
  Status alert = "resolved" ->
  Tracked env db (Fingerprint alert) id ->
  let out := processAlert h env alert db in
  let cid := CustomerID (config h) in
  let key := dbKey (Fingerprint alert) in
  let req := statusOnly (StatusIDResolved (config h)) in
  let uerr := UpdateAlert_result (iris h) env id req cid in
  out = processAlert (with_action h "update") env alert db /\
  remoteCalls (events out) = [EvUpdateAlert id req cid uerr] /\
  (uerr = None -> update_fault env = None ->
   result out = None /\ store out = delete key db /\
   store out !! key = None) /\
  (uerr = None -> update_fault env <> None ->
   is_Some (result out) /\ store out = db) /\
  (uerr <> None -> is_Some (result out) /\ store out = db).
Proof.
  intros Ha Hs Ht. cbv zeta.
  rewrite (processAlert_tracked h env alert db id Ht).
  rewrite (processAlert_tracked (with_action h "update") env alert db id Ht).
  cbv zeta. rewrite Hs. change (String.eqb "resolved" "firing") with false.
  change (String.eqb "resolved" "resolved") with true. cbv iota.
  rewrite (resolveAlert_update_run h env id alert db Ha).
  rewrite (resolveAlert_update_run (with_action h "update") env id alert db)
    by (cbn; discriminate).
  cbv zeta. cbn [with_action config iris StatusIDResolved CustomerID].
  unfold after_view.
  destruct (UpdateAlert_result _ _ _ _ _) as [uerr|];
    [|unfold resolved_tail; destruct (update_fault env) as [msg|]];
    cbn [result store events];
    (split; [reflexivity|]); (split; [reflexivity|]);
    repeat split; try discriminate; try congruence; eauto;
    intros; apply lookup_delete_eq.
Qed.

(** ** The webhook *)

(** C9: when the method is POST and the body decodes, the handler answers
    200 whatever happened to the alerts, and it looks up (so processes)
    every alert of the batch, in order; wherever an alert stands in the
    batch, and whether or not it ended in an error (remote or store), the
    alerts after it are processed, from the index that alert left. *)
Theorem webhook_processes_every_alert h envs r payload db :
  r_Method r = "POST" ->
  Decode_AlertmanagerPayload (r_Body r) = inr payload ->
  let out := HandleWebhook h envs r db in
  code (result out) = 200 /\
  viewedKeys (events out) =
    map (fun a => dbKey (Fingerprint a)) (Alerts payload) /\
  (forall before alert rest,
      Alerts payload = (before ++ alert :: rest)%list ->
      let o1 := rangeAlerts h envs 0 before db in
      let i := length before in
      let oa := processAlert h (envs i) alert (store o1) in
      let o2 := rangeAlerts h envs (S i) rest (store oa) in
      store out = store o2 /\
      events out =
        (events o1 ++ events oa ++ failureLog alert (result oa) ++
         events o2)%list).
Proof.
  intros Hm Hd. cbv zeta. unfold HandleWebhook.
  rewrite Hm, Hd. change (negb (String.eqb "POST" "POST")) with false.
  cbv iota. step. rewrite app_nil_r.
  split; [reflexivity|]. split; [apply rangeAlerts_views|].
  intros before alert rest ->.
  rewrite rangeAlerts_app; cbv zeta; cbn [store events].
  rewrite rangeAlerts_cons; cbv zeta; cbn [store events].
  rewrite Nat.add_0_l. split; reflexivity.
Qed.

(** ** Further properties of the reconciler *)

Lemma dbKey_inj fp fp' : dbKey fp = dbKey fp' -> fp = fp'.
Proof. unfold dbKey. apply (inj (String.append "fp:")). Qed.

Lemma remoteCalls_app (l1 l2 : list Event) :
  remoteCalls (l1 ++ l2) = (remoteCalls l1 ++ remoteCalls l2)%list.
Proof. apply List.filter_app. Qed.

Lemma failureLog_no_call alert (err : option error) :
  remoteCalls (failureLog alert err) = [].
Proof. destruct err; reflexivity. Qed.

(** X3: a step that returns an error leaves the index exactly as it found
    it, whichever operation failed (lookup, remote call or index write). *)
Theorem error_leaves_index_unchanged h env alert db :
  let out := processAlert h env alert db in
  result out <> None -> store out = db.
Proof.
  cbv zeta. all_runs h env alert db; intros Herr;
    try reflexivity; destruct Herr; reflexivity.
Qed.

(** X4: one alert causes one lookup, at most one remote call and at most one
    index write: nothing is retried; so a batch of n alerts causes at most n
    remote calls. *)
Theorem no_retry h env alert db :
  let out := processAlert h env alert db in
  viewedKeys (events out) = [dbKey (Fingerprint alert)] /\
  (length (remoteCalls (events out)) <= 1)%nat /\
  (length (List.filter isIndexWrite (events out)) <= 1)%nat /\
  (forall envs i alerts,
      (length (remoteCalls (events (rangeAlerts h envs i alerts db)))
       <= length alerts)%nat).
Proof.
  cbv zeta. split; [apply processAlert_views|].
  assert (forall env' alert' db',
             (length (remoteCalls (events (processAlert h env' alert' db')))
              <= 1)%nat) as Hone.
  { intros env' alert' db'. all_runs h env' alert' db'; cbn; lia. }
  split; [apply Hone|]. split.
  - all_runs h env alert db; cbn; lia.
  - intros envs i alerts. revert i db.
    induction alerts as [|a alerts IH]; intros i db; [cbn; lia|].
    rewrite rangeAlerts_cons; cbv zeta; cbn [events].
    rewrite !remoteCalls_app, failureLog_no_call, !length_app.
    specialize (Hone (envs i) a db).
    specialize (IH (S i) (store (processAlert h (envs i) a db))).
    cbn [length app]. lia.
Qed.

(** X5: a step returns an error exactly when one of its operations failed:
    no failure is swallowed and no error is made up. *)
Theorem error_iff_operation_failed h env alert db :
  let out := processAlert h env alert db in
  result out = None <-> existsb failed (events out) = false.
Proof.
  cbv zeta. all_runs h env alert db; cbn [existsb failed orb];
    try (split; [reflexivity || discriminate | reflexivity || discriminate]).
  - rewrite bool_decide_true by exact Hne.
    split; discriminate.
Qed.

(** X6: a step reads and writes the entry of its own fingerprint only: every
    other key of the store keeps its value, and over a batch every key that
    belongs to none of the batch's fingerprints does. *)
Theorem other_entries_untouched h env alert db :
  let out := processAlert h env alert db in
  (forall key, key <> dbKey (Fingerprint alert) -> store out !! key = db !! key) /\
  (forall envs i alerts key,
      (forall a, a ∈ alerts -> key <> dbKey (Fingerprint a)) ->
      store (rangeAlerts h envs i alerts db) !! key = db !! key).
Proof.
  cbv zeta.
  assert (forall env' alert' db' key,
             key <> dbKey (Fingerprint alert') ->
             store (processAlert h env' alert' db') !! key = db' !! key) as Hstep.
  { intros env' alert' db' key Hkey.
    all_runs h env' alert' db'; try reflexivity.
    - apply lookup_insert_ne. congruence.
    - apply lookup_delete_ne. congruence.
    - apply lookup_delete_ne. congruence. }
  split; [apply Hstep|].
  intros envs i alerts key. revert i db.
  induction alerts as [|a alerts IH]; intros i db Hkeys; [reflexivity|].
  rewrite rangeAlerts_cons; cbv zeta; cbn [store].
  rewrite IH by (intros a' Ha'; apply Hkeys; right; exact Ha').
  apply Hstep, Hkeys. left.
Qed.

(** X7: when the lookup fails for any reason other than a missing key (the
    badger read fails, or the stored value is not a decimal [int]), the step
    stops there, for every status: it returns the error under "db lookup",
    makes no remote call and no index write.  A damaged entry therefore
    stays as it is. *)
Theorem lookup_failure_stops_alert h env alert db :
  let out := processAlert h env alert db in
  let key := dbKey (Fingerprint alert) in
  (forall msg,
      view_fault env = Some msg ->
      out = mkOut (Some (Errorf "db lookup" (ErrText msg))) db
              [EvView key (inl (ErrText msg))]) /\
  (forall val err,
      view_fault env = None -> db !! key = Some val -> Atoi val = inl err ->
      out = mkOut (Some (Errorf "db lookup" err)) db [EvView key (inl err)]).
Proof.
  cbv zeta. split.
  - intros msg Hv. apply processAlert_lookup_failed; [|discriminate].
    unfold getAlertID; cbn [result]. rewrite Hv. reflexivity.
  - intros val err Hv Hk Ha. apply processAlert_lookup_failed.
    + unfold getAlertID; cbn [result]. rewrite Hv, Hk. exact Ha.
    + intros ->. exact (Atoi_not_KeyNotFound val Ha).
Qed.

(** X8: an alert whose status is neither "firing" nor "resolved" causes no
    remote call and no index write and leaves the index as it was, tracked
    or not; it returns no error unless the lookup itself fails. *)
Theorem unknown_status_ignored h env alert db :
  Status alert <> "firing" ->
  Status alert <> "resolved" ->
  let out := processAlert h env alert db in
  store out = db /\
  remoteCalls (events out) = [] /\
  List.filter isIndexWrite (events out) = [] /\
  (existsb failed (events out) = false -> result out = None).
Proof.
  intros Hf' Hr'. cbv zeta.
  apply String.eqb_neq in Hf', Hr'.
  destruct (lookup_cases env db (Fingerprint alert))
    as [Hu|[[id Ht]|(lerr & Hl & Hne)]].
  - rewrite (processAlert_untracked h env alert db Hu); cbv zeta.
    rewrite Hf', Hr'. unfold after_view; cbn. repeat split.
  - rewrite (processAlert_tracked h env alert db id Ht); cbv zeta.
    rewrite Hf', Hr'. unfold after_view; cbn. repeat split.
  - rewrite (processAlert_lookup_failed h env alert db lerr Hl Hne).
    cbn [result store events remoteCalls List.filter isRemote isIndexWrite
         existsb failed orb].
    rewrite bool_decide_true by exact Hne.
    split; [reflexivity|]. split; [reflexivity|]. split; [reflexivity|].
    discriminate.
Qed.

(** X9: no update call of a step ever sets title, source, source reference,
    source link, customer or classification; the update of a "firing" alert
    never sets the status, and the update of any other alert sets the status
    to the configured resolved code and nothing else. *)
Theorem update_calls_are_partial h env alert db :
  let out := processAlert h env alert db in
  forall id req cid err,
    EvUpdateAlert id req cid err ∈ events out ->
    identityUntouched req /\
    (Status alert = "firing" ->
     req = updateRequest h alert /\ upd_StatusID req = None) /\
    (Status alert <> "firing" ->
     req = statusOnly (StatusIDResolved (config h))).
Proof.
  cbv zeta. intros uid req cid err.
  all_runs h env alert db; intros Hin;
    repeat match goal with
      | H : _ ∈ [] |- _ => inversion H
      | H : _ ∈ _ :: _ |- _ =>
          apply elem_of_cons in H as [H|H]; [try discriminate H|]
      end;
    injection Hin as -> -> -> ->;
    (split; [repeat split|]);
    (split; [intros Hst|intros Hst]);
    try (split; reflexivity); try reflexivity;
    try (rewrite Hst in Hf; discriminate Hf);
    try (destruct Hst; apply String.eqb_eq; exact Hf).
Qed.

(** X10: a "resolved" alert is reconciled from its fingerprint alone: two
    "resolved" alerts with the same fingerprint give the same result, the
    same store and the same events, whatever their labels, annotations and
    times. *)
Theorem resolution_ignores_alert_content h env alert alert' db :
  Status alert = "resolved" ->
  Status alert' = "resolved" ->
  Fingerprint alert = Fingerprint alert' ->
  processAlert h env alert db = processAlert h env alert' db.
Proof.
  intros Hs Hs' Hfp.
  destruct (lookup_cases env db (Fingerprint alert))
    as [Hu|[[id Ht]|(lerr & Hl & Hne)]].
  - rewrite (processAlert_untracked h env alert db Hu).
    rewrite Hfp in Hu. rewrite (processAlert_untracked h env alert' db Hu).
    cbv zeta. rewrite Hs, Hs', Hfp. reflexivity.
  - rewrite (processAlert_tracked h env alert db id Ht).
    rewrite Hfp in Ht. rewrite (processAlert_tracked h env alert' db id Ht).
    cbv zeta. rewrite Hs, Hs', Hfp.
    change (String.eqb "resolved" "firing") with false.
    change (String.eqb "resolved" "resolved") with true. cbv iota.
    f_equal.
    destruct (decide (ResolvedAction (config h) = "delete")) as [Ha|Ha].
    + rewrite !(resolveAlert_delete_run _ _ _ _ _ Ha). cbv zeta.
      unfold resolved_tail. rewrite Hfp. reflexivity.
    + rewrite !(resolveAlert_update_run _ _ _ _ _ Ha). cbv zeta.
      unfold resolved_tail. rewrite Hfp. reflexivity.
  - rewrite (processAlert_lookup_failed h env alert db lerr Hl Hne).
    rewrite Hfp in Hl.
    rewrite (processAlert_lookup_failed h env alert' db lerr Hl Hne).
    rewrite Hfp. reflexivity.
Qed.

(** What a successful create leaves behind: the fingerprint is tracked
    under the returned id. *)
Lemma created_is_tracked h env1 env2 alert db id :
  Status alert = "firing" ->
  Untracked env1 db (Fingerprint alert) ->
  CreateAlert_result (iris h) env1 (createRequest h alert)
    (CustomerID (config h)) = inr id ->
  update_fault env1 = None ->
  isInt id ->
  view_fault env2 = None ->
  store (processAlert h env1 alert db) =
    <[dbKey (Fingerprint alert) := Itoa id]> db /\
  Tracked env2 (store (processAlert h env1 alert db)) (Fingerprint alert) id.
Proof.
  intros Hs Hu Hc Hw Hint Hv.
  rewrite (processAlert_untracked h env1 alert db Hu); cbv zeta.
  rewrite Hs. change (String.eqb "firing" "firing") with true. cbv iota.
  rewrite createAlert_run; cbv zeta. rewrite Hc, Hw.
  unfold after_view; cbn [store]. split; [reflexivity|].
  apply Tracked_iff. split; [exact Hv|].
  exists (Itoa id). split; [apply lookup_insert_eq|apply Atoi_Itoa, Hint].
Qed.

(** X11: after a "firing" alert was created and stored under id, a further
    "firing" alert with the same fingerprint causes no second create: its one
    remote call is an update addressed to that id, and the index keeps the
    entry. *)
Theorem created_then_fired_again h env1 env2 alert alert' db id :
  Status alert = "firing" ->
  Untracked env1 db (Fingerprint alert) ->
  CreateAlert_result (iris h) env1 (createRequest h alert)
    (CustomerID (config h)) = inr id ->
  update_fault env1 = None ->
  isInt id ->
  Status alert' = "firing" ->
  Fingerprint alert' = Fingerprint alert ->
  view_fault env2 = None ->
  let out1 := processAlert h env1 alert db in
  let out2 := processAlert h env2 alert' (store out1) in
  let cid := CustomerID (config h) in
  remoteCalls (events out2) =
    [EvUpdateAlert id (updateRequest h alert') cid
       (UpdateAlert_result (iris h) env2 id (updateRequest h alert') cid)] /\
  store out2 = store out1 /\
  store out2 !! dbKey (Fingerprint alert) = Some (Itoa id).
Proof.
  intros Hs Hu Hc Hw Hint Hs' Hfp Hv. cbv zeta.
  destruct (created_is_tracked h env1 env2 alert db id Hs Hu Hc Hw Hint Hv)
    as [Hst Ht].
  rewrite <- Hfp in Ht.
  rewrite (processAlert_tracked h env2 alert' _ id Ht); cbv zeta.
  rewrite Hs'. change (String.eqb "firing" "firing") with true. cbv iota.
  rewrite updateAlert_run; cbv zeta. unfold after_view.
  destruct (UpdateAlert_result _ _ _ _ _); cbn [result store events];
    (split; [reflexivity|]); (split; [reflexivity|]);
    rewrite Hst; apply lookup_insert_eq.
Qed.

(** X12: after a "firing" alert was created and stored under id, a
    "resolved" alert with the same fingerprint addresses its one remote call
    to that id (a delete under the action "delete", otherwise the status
    update), and when it is reconciled without error the index is back to
    what it was before the alert first fired. *)
Theorem created_then_resolved h env1 env2 alert alert' db id :
  Status alert = "firing" ->
  Untracked env1 db (Fingerprint alert) ->
  CreateAlert_result (iris h) env1 (createRequest h alert)
    (CustomerID (config h)) = inr id ->
  update_fault env1 = None ->
  isInt id ->
  Status alert' = "resolved" ->
  Fingerprint alert' = Fingerprint alert ->
  view_fault env2 = None ->
  let out1 := processAlert h env1 alert db in
  let out2 := processAlert h env2 alert' (store out1) in
  let cid := CustomerID (config h) in
  remoteCalls (events out2) =
    [if String.eqb (ResolvedAction (config h)) "delete"
     then EvDeleteAlert id cid (DeleteAlert_result (iris h) env2 id cid)
     else
       let req := statusOnly (StatusIDResolved (config h)) in
       EvUpdateAlert id req cid (UpdateAlert_result (iris h) env2 id req cid)] /\
  (result out2 = None -> store out2 = db) /\
  (result out2 <> None -> store out2 = store out1).
Proof.
  intros Hs Hu Hc Hw Hint Hs' Hfp Hv. cbv zeta.
  destruct (created_is_tracked h env1 env2 alert db id Hs Hu Hc Hw Hint Hv)
    as [Hst Ht].
  apply Untracked_iff in Hu as [_ Hk].
  assert (delete (dbKey (Fingerprint alert'))
            (store (processAlert h env1 alert db)) = db) as Hback.
  { rewrite Hst, Hfp. apply delete_insert_id, Hk. }
  rewrite <- Hfp in Ht.
  rewrite (processAlert_tracked h env2 alert' _ id Ht); cbv zeta.
  rewrite Hs'. change (String.eqb "resolved" "firing") with false.
  change (String.eqb "resolved" "resolved") with true. cbv iota.
  unfold after_view.
  destruct (String.eqb_spec (ResolvedAction (config h)) "delete") as [Ha|Ha].
  - rewrite (resolveAlert_delete_run h env2 id alert' _ Ha); cbv zeta.
    destruct (DeleteAlert_result _ _ _ _) as [derr|];
      [|unfold resolved_tail; destruct (update_fault env2) as [msg|]];
      cbn [result store events];
      (split; [reflexivity|]); split; intros Hres;
      try discriminate Hres; try reflexivity;
      try exact Hback; destruct Hres; reflexivity.
  - rewrite (resolveAlert_update_run h env2 id alert' _ Ha); cbv zeta.
    destruct (UpdateAlert_result _ _ _ _ _) as [uerr|];
      [|unfold resolved_tail; destruct (update_fault env2) as [msg|]];
      cbn [result store events];
      (split; [reflexivity|]); split; intros Hres;
      try discriminate Hres; try reflexivity;
      try exact Hback; destruct Hres; reflexivity.
Qed.

(** ** The fingerprint index on its own *)

(** X1: a successful [storeAlertID] makes the next served lookup of that
    fingerprint return the stored id, whatever the index held for it before,
    and changes the answer for no other fingerprint; a failed one changes
    nothing. *)
Theorem store_then_lookup env env' fp id db :
  let out := storeAlertID env fp id db in
  (update_fault env = None -> view_fault env' = None -> isInt id ->
   result out = None /\ Tracked env' (store out) fp id) /\
  (forall fp', fp' <> fp ->
               result (getAlertID env' fp' (store out)) =
               result (getAlertID env' fp' db)) /\
  (update_fault env <> None -> is_Some (result out) /\ store out = db).
Proof.
  cbv zeta. unfold storeAlertID.
  destruct (update_fault env) as [msg|]; cbn [result store].
  - split; [intros H; discriminate H|]. split; [reflexivity|].
    intros _. split; [eauto|reflexivity].
  - split; [|split].
    + intros _ Hv Hint. split; [reflexivity|]. apply Tracked_iff.
      split; [exact Hv|]. exists (Itoa id).
      split; [apply lookup_insert_eq|apply Atoi_Itoa, Hint].
    + intros fp' Hne'. unfold getAlertID; cbn [result].
      rewrite lookup_insert_ne; [reflexivity|].
      intros Hk. apply dbKey_inj in Hk. congruence.
    + intros Hc. destruct Hc. reflexivity.
Qed.

(** X2: a successful [deleteAlertID] makes the next served lookup of that
    fingerprint report the missing key and changes the answer for no other
    fingerprint; deleting a fingerprint the index does not hold succeeds and
    leaves the index as it was; a failed delete changes nothing. *)
Theorem delete_then_lookup env env' fp db :
  let out := deleteAlertID env fp db in
  (update_fault env = None -> view_fault env' = None ->
   result out = None /\ Untracked env' (store out) fp) /\
  (update_fault env = None -> db !! dbKey fp = None ->
   result out = None /\ store out = db) /\
  (forall fp', fp' <> fp ->
               result (getAlertID env' fp' (store out)) =
               result (getAlertID env' fp' db)) /\
  (update_fault env <> None -> is_Some (result out) /\ store out = db).
Proof.
  cbv zeta. unfold deleteAlertID.
  destruct (update_fault env) as [msg|]; cbn [result store].
  - split; [intros H; discriminate H|]. split; [intros H; discriminate H|].
    split; [reflexivity|]. intros _. split; [eauto|reflexivity].
  - split; [|split; [|split]].
    + intros _ Hv. split; [reflexivity|]. apply Untracked_iff.
      split; [exact Hv|apply lookup_delete_eq].
    + intros _ Hk. split; [reflexivity|apply delete_id, Hk].
    + intros fp' Hne'. unfold getAlertID; cbn [result].
      rewrite lookup_delete_ne; [reflexivity|].
      intros Hk. apply dbKey_inj in Hk. congruence.
    + intros Hc. destruct Hc. reflexivity.
Qed.

(** ** The webhook's refusals *)

(** X13: a request whose method is not POST is answered 405 before its body
    is looked at: no event at all, the index untouched; a POST whose body
    does not decode is answered 400 and no alert is looked up, no remote
    call is made and the index is untouched. *)
Theorem webhook_refuses_without_processing h envs r db :
  let out := HandleWebhook h envs r db in
  (r_Method r <> "POST" ->
   code (result out) = 405 /\ events out = [] /\ store out = db) /\
  (forall err,
      r_Method r = "POST" ->
      Decode_AlertmanagerPayload (r_Body r) = inl err ->
      code (result out) = 400 /\ store out = db /\
      viewedKeys (events out) = [] /\ remoteCalls (events out) = [] /\
      List.filter isIndexWrite (events out) = []).
Proof.
  cbv zeta. unfold HandleWebhook. split.
  - intros Hm. apply String.eqb_neq in Hm. rewrite Hm. cbn. repeat split.
  - intros err Hm Hd. rewrite Hm, Hd.
    change (negb (String.eqb "POST" "POST")) with false. cbv iota.
    step. cbn. repeat split.
Qed.

(** X19: whenever a step writes to the index, it has just created the
    alert: its one remote call is a create that returned an id, the request
    named the alert's fingerprint as source reference, and the write stores
    the decimal form of exactly that id under the key of that fingerprint. *)
Theorem stored_id_is_created_id h env alert db :
  let out := processAlert h env alert db in
  forall key val err,
    EvSet key val err ∈ events out ->
    exists req id,
      remoteCalls (events out) =
        [EvCreateAlert req (CustomerID (config h)) (inr id)] /\
      req_SourceRef req = Fingerprint alert /\
      key = dbKey (Fingerprint alert) /\
      val = Itoa id.
Proof.
  cbv zeta. intros key val err.
  all_runs h env alert db; intros Hin;
    repeat match goal with
      | H : _ ∈ [] |- _ => inversion H
      | H : _ ∈ _ :: _ |- _ =>
          apply elem_of_cons in H as [H|H]; [try discriminate H|]
      end;
    injection Hin as -> -> ->;
    exists (createRequest h alert), newID; repeat split.
Qed.

(** ** An index the reconciler can always read back *)

Lemma CreateAlert_result_decoded (c : IRISClient) env req cid id :
  CreateAlert_result c env req cid = inr id ->
  exists data, Unmarshal_IRISAlertData data = inr id.
Proof.
  unfold CreateAlert_result.
  destruct (Marshal_IRISAlertRequest req); [discriminate|].
  destruct (do _ _ _ _ _ _) as [e|resp]; [discriminate|].
  destruct (Unmarshal_IRISAlertData (resp_Data resp)) eqn:E; [discriminate|].
  intros [= <-]. eauto.
Qed.

(** X18: when the alert ids the server returns are [int] values (as the Go
    field is), the reconciler keeps every value of the index readable: from
    an index whose values are all decimal [int]s, a step and a whole batch
    leave such an index, so a lookup of an entry the reconciler wrote fails
    only when the store itself fails, never on the decoding. *)
Theorem index_stays_decodable h db :
  (forall data id, Unmarshal_IRISAlertData data = inr id -> isInt id) ->
  decodable db ->
  (forall env alert, decodable (store (processAlert h env alert db))) /\
  (forall envs i alerts, decodable (store (rangeAlerts h envs i alerts db))) /\
  (forall env fp val,
      view_fault env = None -> db !! dbKey fp = Some val ->
      exists id, Tracked env db fp id).
Proof.
  intros Hint Hdb.
  assert (forall env alert db',
             decodable db' -> decodable (store (processAlert h env alert db')))
    as Hstep.
  { intros env alert db' Hdb'.
    all_runs h env alert db'; try exact Hdb'.
    - intros key val Hkv.
      destruct (decide (key = dbKey (Fingerprint alert))) as [->|Hk].
      + rewrite lookup_insert_eq in Hkv. injection Hkv as <-.
        apply CreateAlert_result_decoded in Hc as [data Hdata]. eauto.
      + rewrite lookup_insert_ne in Hkv by congruence. eauto.
    - intros key val Hkv. apply lookup_delete_Some in Hkv as [_ Hkv]. eauto.
    - intros key val Hkv. apply lookup_delete_Some in Hkv as [_ Hkv]. eauto. }
  split; [intros env alert; apply Hstep, Hdb|]. split.
  - intros envs i alerts. revert i db Hdb.
    induction alerts as [|a alerts IH]; intros i db Hdb; [exact Hdb|].
    rewrite rangeAlerts_cons; cbv zeta; cbn [store]. apply IH, Hstep, Hdb.
  - intros env fp val Hv Hk. destruct (Hdb _ _ Hk) as (id & Hid & ->).
    exists id. apply Tracked_iff. split; [exact Hv|].
    exists (Itoa id). split; [exact Hk|apply Atoi_Itoa, Hid].
Qed.

End ReconcilerFacts.

(** ** The transitions on the fixtures *)

Section Examples.
Import Fixtures.
Existing Instance stubLib.

(** C1, as stated, fails: the create call succeeds with id 42, the badger
    write then fails, and the index has gained no entry. *)
Lemma create_succeeds_store_write_fails :
  let alert := diskFullAlert "firing" in
  let out := processAlert (handler "update") diskFull alert ∅ in
  Status alert = "firing" /\
  (∅ : gmap string string) !! dbKey (Fingerprint alert) = None /\
  remoteCalls (events out) = [created] /\
  store out !! dbKey (Fingerprint alert) = None /\
  result out =
    Some (Errorf "store alert mapping" (ErrText "no space left on device")).
Proof. vm_compute. repeat split. Qed.

Lemma firing_untracked_creates_witness :
  let alert := diskFullAlert "firing" in
  let out := processAlert (handler "update") serverOK alert ∅ in
  Status alert = "firing" /\
  Untracked serverOK ∅ (Fingerprint alert) /\
  remoteCalls (events out) = [created] /\
  store out = {[ "fp:abc123" := "42" ]} /\
  Tracked serverOK (store out) "abc123" 42.
Proof.
  cbv zeta.
  assert (Untracked serverOK ∅ (Fingerprint (diskFullAlert "firing"))) as Hu
    by (vm_compute; reflexivity).
  destruct (firing_untracked_creates (handler "update") serverOK
              (diskFullAlert "firing") ∅ eq_refl Hu)
    as (Hcalls & _ & Hok & _).
  destruct (Hok 42) as (_ & Hstore & Hread);
    [vm_compute; reflexivity | reflexivity |].
  split; [reflexivity|]. split; [exact Hu|]. split; [exact Hcalls|].
  split; [exact Hstore|]. apply Hread. unfold isInt, minInt, maxInt. lia.
Defined.

Lemma firing_tracked_updates_witness :
  let alert := diskFullAlert "firing" in
  let out := processAlert (handler "update") serverOK alert tracking42 in
  Status alert = "firing" /\
  Tracked serverOK tracking42 (Fingerprint alert) 42 /\
  remoteCalls (events out) =
    [EvUpdateAlert 42 (updateRequest (handler "update") alert) 1 None] /\
  store out = tracking42.
Proof.
  cbv zeta.
  assert (Tracked serverOK tracking42 (Fingerprint (diskFullAlert "firing")) 42)
    as Ht by (vm_compute; reflexivity).
  destruct (firing_tracked_updates (handler "update") serverOK
              (diskFullAlert "firing") tracking42) as (Hupd & _ & _ & _).
  destruct (Hupd 42 eq_refl Ht) as [Hcalls Hstore].
  split; [reflexivity|]. split; [exact Ht|]. split; [exact Hcalls|exact Hstore].
Defined.

(** C3, as stated, fails: the server answers 500 to the one update call,
    and the index entry is not removed. *)
Lemma resolve_call_fails_entry_stays :
  let alert := diskFullAlert "resolved" in
  let out := processAlert (handler "update") serverDown alert tracking42 in
  Status alert = "resolved" /\
  Tracked serverDown tracking42 (Fingerprint alert) 42 /\
  (exists err, remoteCalls (events out) =
               [EvUpdateAlert 42 (statusOnly 6) 1 (Some err)]) /\
  store out !! dbKey (Fingerprint alert) = Some "42".
Proof.
  cbv zeta. split; [reflexivity|]. split; [vm_compute; reflexivity|].
  split; [eexists; vm_compute; reflexivity | vm_compute; reflexivity].
Qed.

Lemma resolved_tracked_resolves_witness :
  let alert := diskFullAlert "resolved" in
  let out := processAlert (handler "delete") serverOK alert tracking42 in
  Status alert = "resolved" /\
  Tracked serverOK tracking42 (Fingerprint alert) 42 /\
  remoteCalls (events out) = [EvDeleteAlert 42 1 None] /\
  result out = None /\
  store out !! "fp:abc123" = None.
Proof.
  cbv zeta.
  assert (Tracked serverOK tracking42 (Fingerprint (diskFullAlert "resolved")) 42)
    as Ht by (vm_compute; reflexivity).
  destruct (resolved_tracked_resolves (handler "delete") serverOK
              (diskFullAlert "resolved") tracking42 42 eq_refl Ht)
    as (Hcalls & Hok & _).
  destruct Hok as (Hres & _ & Hgone);
    [vm_compute; reflexivity | reflexivity |].
  split; [reflexivity|]. split; [exact Ht|].
  split; [exact Hcalls|]. split; [exact Hres|exact Hgone].
Defined.

Lemma resolved_untracked_noop_witness :
  let alert := diskFullAlert "resolved" in
  let out1 := processAlert (handler "delete") serverOK alert tracking42 in
  let out2 := processAlert (handler "delete") serverOK alert (store out1) in
  Status alert = "resolved" /\
  result out2 = None /\ store out2 = store out1 /\
  remoteCalls (events out2) = [].
Proof.
  cbv zeta.
  destruct (resolved_untracked_noop (handler "delete")
              (diskFullAlert "resolved") tracking42 eq_refl) as [_ Hreplay].
  destruct (Hreplay serverOK serverOK 42) as (_ & Hstore & Hcalls & _ & Hres);
    [vm_compute; reflexivity | vm_compute; reflexivity |].
  split; [reflexivity|]. split; [apply Hres; reflexivity|].
  split; [exact Hstore|exact Hcalls].
Defined.

Lemma remote_call_before_index_write_witness :
  let alert := diskFullAlert "firing" in
  let out := processAlert (handler "update") serverDown alert ∅ in
  is_Some (result out) /\ store out = ∅ /\
  List.filter isIndexWrite (events out) = [].
Proof.
  cbv zeta.
  destruct (remote_call_before_index_write (handler "update") serverDown
              (diskFullAlert "firing") ∅) as (_ & _ & Hfail).
  eapply Hfail.
  - vm_compute. right. left.
  - reflexivity.
Defined.

(** C10, as stated, fails: the configured action is "archive", the server
    answers 500 to the update call, and the index entry is not removed. *)
Lemma archive_call_fails_entry_stays :
  let alert := diskFullAlert "resolved" in
  let out := processAlert (handler "archive") serverDown alert tracking42 in
  ResolvedAction (config (handler "archive")) <> "delete" /\
  Status alert = "resolved" /\
  Tracked serverDown tracking42 (Fingerprint alert) 42 /\
  (exists err, remoteCalls (events out) =
               [EvUpdateAlert 42 (statusOnly 6) 1 (Some err)]) /\
  store out !! dbKey (Fingerprint alert) = Some "42".
Proof.
  cbv zeta. split; [discriminate|]. split; [reflexivity|].
  split; [vm_compute; reflexivity|].
  split; [eexists; vm_compute; reflexivity | vm_compute; reflexivity].
Qed.

Lemma resolved_action_other_than_delete_witness :
  let alert := diskFullAlert "resolved" in
  let out := processAlert (handler "") serverOK alert tracking42 in
  ResolvedAction (config (handler "")) <> "delete" /\
  out = processAlert (handler "update") serverOK alert tracking42 /\
  remoteCalls (events out) = [EvUpdateAlert 42 (statusOnly 6) 1 None] /\
  store out !! "fp:abc123" = None.
Proof.
  cbv zeta.
  assert (ResolvedAction (config (handler "")) <> "delete") as Ha
    by discriminate.
  assert (Tracked serverOK tracking42 (Fingerprint (diskFullAlert "resolved")) 42)
    as Ht by (vm_compute; reflexivity).
  destruct (resolved_action_other_than_delete (handler "") serverOK
              (diskFullAlert "resolved") tracking42 42 Ha eq_refl Ht)
    as (Hsame & Hcalls & Hok & _).
  destruct Hok as (_ & _ & Hgone);
    [vm_compute; reflexivity | reflexivity |].
  split; [exact Ha|]. split; [exact Hsame|].
  split; [exact Hcalls|exact Hgone].
Defined.

(** A batch whose first alert fails at the server still has its second
    alert looked up, and the answer is 200. *)
Lemma webhook_processes_every_alert_witness :
  let r := {| r_Method := "POST"; r_Body := "abc123" |} in
  let out := HandleWebhook (handler "update") (fun _ => serverDown) r tracking42 in
  r_Method r = "POST" /\
  code (result out) = 200 /\
  viewedKeys (events out) = ["fp:abc123"; "fp:abc123"].
Proof.
  cbv zeta.
  destruct (webhook_processes_every_alert (handler "update")
              (fun _ => serverDown)
              {| r_Method := "POST"; r_Body := "abc123" |}
              (payloadOf [alertOf "firing" "abc123" ∅;
                          alertOf "resolved" "abc123" ∅])
              tracking42) as (Hcode & Hviews & _);
    [reflexivity | reflexivity |].
  split; [reflexivity|]. split; [exact Hcode|exact Hviews].
Defined.

(** The scenario of the specification: fingerprint "abc123" fires with
    alertname "DiskFull" and is created with that title and tag; it then
    resolves under the action "delete": one delete call for the stored id,
    and the index no longer holds the fingerprint. *)
Example firing_then_resolved_by_delete :
  let h := handler "delete" in
  let out1 := processAlert h serverOK (diskFullAlert "firing") ∅ in
  let out2 := processAlert h serverOK (diskFullAlert "resolved") (store out1) in
  (exists req,
      remoteCalls (events out1) = [EvCreateAlert req 1 (inr 42)] /\
      req_Title req = "DiskFull" /\ req_Tags req = "DiskFull" /\
      req_SourceRef req = "abc123") /\
  store out1 = {[ "fp:abc123" := "42" ]} /\
  remoteCalls (events out2) = [EvDeleteAlert 42 1 None] /\
  store out2 = ∅.
Proof.
  cbv zeta. split; [eexists; vm_compute; repeat split|].
  vm_compute. repeat split.
Qed.

End Examples.

(** ** The client's requests *)

Section ClientRequests.
Context `{lib : Lib}.

Lemma do_same_answer (c : IRISClient) (env env' : Env) (method path : string)
    (body : option string) (cid : Z) :
  RoundTrip env (sentRequest c method path body cid) =
  RoundTrip env' (sentRequest c method path body cid) ->
  do c env method path body cid = do c env' method path body cid.
Proof.
  unfold do, NewRequest, sentRequest. intros Hsame.
  destruct (NewRequest_check method _); [reflexivity|].
  cbn [Header_Set Method URL Header Body] in *. rewrite Hsame. reflexivity.
Qed.

(** X14: what a client call returns depends on the outside only through the
    answer to one request: a POST to the base URL followed by "/alerts/add",
    "/alerts/update/<id>" or "/alerts/delete/<id>" and "?cid=<cid>", with
    the bearer token and the JSON content type, carrying the marshalled
    request (no body for a delete).  When the request does not marshal, or
    [http.NewRequest] refuses it, the transport is not consulted at all. *)
Theorem call_depends_on_one_answer (c : IRISClient) (env env' : Env) (cid : Z) :
  (forall method path body,
      let req := sentRequest c method path body cid in
      Method req = method /\
      URL req = baseURL c +:+ path +:+ "?cid=" +:+ Itoa cid /\
      Header req !! "Authorization" = Some ("Bearer " +:+ apiKey c) /\
      Header req !! "Content-Type" = Some "application/json" /\
      Body req = body /\
      (RoundTrip env req = RoundTrip env' req ->
       do c env method path body cid = do c env' method path body cid) /\
      (is_Some (NewRequest_check method (URL req)) ->
       do c env method path body cid = do c env' method path body cid)) /\
  (forall req,
      match Marshal_IRISAlertRequest req with
      | inl _ => CreateAlert_result c env req cid = CreateAlert_result c env' req cid
      | inr body =>
          let sent := sentRequest c "POST" "/alerts/add" (Some body) cid in
          RoundTrip env sent = RoundTrip env' sent ->
          CreateAlert_result c env req cid = CreateAlert_result c env' req cid
      end) /\
  (forall alertID req,
      match Marshal_IRISAlertUpdateRequest req with
      | inl _ =>
          UpdateAlert_result c env alertID req cid =
          UpdateAlert_result c env' alertID req cid
      | inr body =>
          let sent := sentRequest c "POST" ("/alerts/update/" +:+ Itoa alertID)
                        (Some body) cid in
          RoundTrip env sent = RoundTrip env' sent ->
          UpdateAlert_result c env alertID req cid =
          UpdateAlert_result c env' alertID req cid
      end) /\
  (forall alertID,
      let sent := sentRequest c "POST" ("/alerts/delete/" +:+ Itoa alertID)
                    None cid in
      RoundTrip env sent = RoundTrip env' sent ->
      DeleteAlert_result c env alertID cid = DeleteAlert_result c env' alertID cid).
Proof.
  split; [|split; [|split]].
  - intros method path body. cbv zeta.
    split; [reflexivity|]. split; [reflexivity|].
    split; [unfold sentRequest, Header_Set; cbn [Header];
            rewrite lookup_insert_ne by discriminate; apply lookup_insert_eq|].
    split; [unfold sentRequest, Header_Set; cbn [Header];
            apply lookup_insert_eq|].
    split; [reflexivity|]. split; [apply do_same_answer|].
    intros [err Herr]. unfold do, NewRequest.
    change (URL (sentRequest c method path body cid))
      with (baseURL c +:+ path +:+ "?cid=" +:+ Itoa cid) in Herr.
    rewrite Herr. reflexivity.
  - intros req. unfold CreateAlert_result.
    destruct (Marshal_IRISAlertRequest req) as [e|body]; [reflexivity|].
    cbv zeta. intros Hsame. rewrite (do_same_answer c env env' _ _ _ _ Hsame).
    reflexivity.
  - intros alertID req. unfold UpdateAlert_result.
    destruct (Marshal_IRISAlertUpdateRequest req) as [e|body]; [reflexivity|].
    cbv zeta. intros Hsame. rewrite (do_same_answer c env env' _ _ _ _ Hsame).
    reflexivity.
  - intros alertID. cbv zeta. intros Hsame. unfold DeleteAlert_result.
    rewrite (do_same_answer c env env' _ _ _ _ Hsame). reflexivity.
Qed.

End ClientRequests.

(** ** Construction and configuration *)

Lemma append_cons (c : ascii) (s t : string) :
  String c s +:+ t = String c (s +:+ t).
Proof. reflexivity. Qed.

Lemma append_nil_r (s : string) : s +:+ "" = s.
Proof.
  induction s as [|c s IH]; [reflexivity|]. rewrite append_cons, IH. reflexivity.
Qed.

Lemma slashes_snoc (n : nat) : slashes (S n) = slashes n +:+ "/".
Proof.
  induction n as [|n IH]; [reflexivity|].
  change (String "/" (slashes (S n)) = String "/" (slashes n) +:+ "/").
  rewrite append_cons, <- IH. reflexivity.
Qed.

Lemma inCutset_slash (c : ascii) : inCutset c "/" = Ascii.eqb c "/".
Proof. unfold inCutset; cbn. apply orb_false_r. Qed.

Lemma TrimRight_slashes (s : string) :
  exists n, s = TrimRight s "/" +:+ slashes n.
Proof.
  induction s as [|c s [n IH]]; [exists 0%nat; reflexivity|].
  cbn [TrimRight]. destruct (TrimRight s "/") as [|k kept] eqn:E.
  - rewrite inCutset_slash. destruct (Ascii.eqb_spec c "/") as [->|Hc].
    + exists (S n). rewrite IH at 1. reflexivity.
    + exists n. rewrite IH at 1. reflexivity.
  - exists n. rewrite IH at 1. reflexivity.
Qed.

Lemma TrimRight_no_trailing_slash (s pre : string) :
  TrimRight s "/" <> pre +:+ "/".
Proof.
  revert pre. induction s as [|c s IH]; intros pre; cbn [TrimRight].
  { destruct pre; discriminate. }
  destruct (TrimRight s "/") as [|k kept] eqn:E.
  - rewrite inCutset_slash. destruct (Ascii.eqb_spec c "/") as [->|Hc].
    + destruct pre; discriminate.
    + destruct pre as [|p pre]; [intros [= ->]; congruence|].
      rewrite append_cons. intros [= _ H]. destruct pre; discriminate H.
  - destruct pre as [|p pre]; [discriminate|].
    rewrite append_cons. intros [= _ H]. exact (IH pre H).
Qed.

(** X15: [NewIRISClient] keeps the API key and takes as base URL the
    configured URL without its trailing slashes, all of them and nothing
    else: the base URL never ends with a slash (so joining a path that
    starts with one gives no double slash), and a URL that does not end with
    a slash is kept as it is. *)
Theorem NewIRISClient_trims_base_url (cfg : IRISConfig) :
  let c := (NewIRISClient cfg).1 in
  apiKey c = cfg_APIKey cfg /\
  (exists n, cfg_URL cfg = baseURL c +:+ slashes n) /\
  (forall pre, baseURL c <> pre +:+ "/") /\
  ((forall pre, cfg_URL cfg <> pre +:+ "/") -> baseURL c = cfg_URL cfg).
Proof.
  cbv zeta. cbn [NewIRISClient fst baseURL apiKey].
  split; [reflexivity|]. split; [apply TrimRight_slashes|].
  split; [intros pre; apply TrimRight_no_trailing_slash|].
  intros Hno. destruct (TrimRight_slashes (cfg_URL cfg)) as [[|n] Hn].
  - rewrite append_nil_r in Hn. symmetry. exact Hn.
  - rewrite slashes_snoc, <- append_assoc in Hn. destruct (Hno _ Hn).
Qed.

Lemma NewIRISClient_trims_base_url_witness :
  baseURL (NewIRISClient {| cfg_URL := "https://iris.example.com";
                            cfg_APIKey := "k";
                            cfg_SkipTLSVerify := false |}).1
  = "https://iris.example.com".
Proof.
  apply (NewIRISClient_trims_base_url
           {| cfg_URL := "https://iris.example.com"; cfg_APIKey := "k";
              cfg_SkipTLSVerify := false |}).
  intros pre H.
  destruct (TrimRight_no_trailing_slash "https://iris.example.com" pre).
  vm_compute. exact H.
Defined.

(** *** The environment-variable key *)

Lemma stripPrefix_app (prefix s : string) :
  stripPrefix prefix (prefix +:+ s) = Some s.
Proof.
  induction prefix as [|p prefix IH]; [destruct s; reflexivity|].
  rewrite append_cons. cbn [stripPrefix]. rewrite Ascii.eqb_refl. exact IH.
Qed.

Lemma ToLower_app (s t : string) : ToLower (s +:+ t) = ToLower s +:+ ToLower t.
Proof.
  induction s as [|c s IH]; [reflexivity|].
  rewrite append_cons. cbn [ToLower]. rewrite IH. reflexivity.
Qed.

Lemma lowerByte_underscore (c : ascii) :
  Ascii.eqb (lowerByte c) "_" = Ascii.eqb c "_".
Proof. destruct c as [[] [] [] [] [] [] [] []]; vm_compute; reflexivity. Qed.

Lemma ToLower_endsWithUnderscore (s : string) :
  endsWithUnderscore (ToLower s) = endsWithUnderscore s.
Proof.
  induction s as [|c s IH]; [reflexivity|].
  cbn [ToLower endsWithUnderscore]. destruct s as [|d s].
  - cbn [ToLower]. apply lowerByte_underscore.
  - cbn [ToLower] in *. exact IH.
Qed.

Lemma prefix_underscore (s : string) :
  String.prefix "_" s = match s with
                        | String c _ => Ascii.eqb c "_"
                        | EmptyString => false
                        end.
Proof.
  destruct s as [|c s]; [reflexivity|]. cbn [String.prefix].
  destruct (ascii_dec "_" c) as [<-|Hne]; [destruct s; reflexivity|].
  symmetry. apply Ascii.eqb_neq. congruence.
Qed.

Lemma prefix_dunder (c : ascii) (s : string) :
  String.prefix "__" (String c s) = Ascii.eqb c "_" && String.prefix "_" s.
Proof.
  cbn [String.prefix]. destruct (ascii_dec "_" c) as [<-|Hne]; [reflexivity|].
  symmetry. apply andb_false_iff. left. apply Ascii.eqb_neq. congruence.
Qed.

Lemma ToLower_hasDoubleUnderscore (s : string) :
  hasDoubleUnderscore (ToLower s) = hasDoubleUnderscore s.
Proof.
  induction s as [|c s IH]; [reflexivity|].
  cbn [ToLower hasDoubleUnderscore]. rewrite IH, lowerByte_underscore.
  rewrite !prefix_underscore. destruct s as [|d s]; [reflexivity|].
  cbn [ToLower]. rewrite lowerByte_underscore. reflexivity.
Qed.

(** The three equations of the scan for ["__"]. *)
Lemma Replace_dunder_match (s : string) :
  Replace (String "_" (String "_" s)) "__" "." = "." +:+ Replace s "__" ".".
Proof.
  unfold Replace. cbn [replaceAll]. rewrite prefix_dunder, prefix_underscore.
  change (Ascii.eqb "_" "_") with true. cbv iota beta.
  change (String.length "__" - 1)%nat with 1%nat. reflexivity.
Qed.

Lemma Replace_dunder_skip (c : ascii) (s : string) :
  Ascii.eqb c "_" && String.prefix "_" s = false ->
  Replace (String c s) "__" "." = String c (Replace s "__" ".").
Proof.
  intros H. unfold Replace. cbn [replaceAll]. rewrite prefix_dunder, H.
  reflexivity.
Qed.

Lemma Replace_dunder_cases (c : ascii) (s : string) :
  (exists s', c = "_"%char /\ s = String "_" s') \/
  Ascii.eqb c "_" && String.prefix "_" s = false.
Proof.
  rewrite prefix_underscore.
  destruct (Ascii.eqb_spec c "_") as [->|Hc]; [|right; reflexivity].
  destruct s as [|d s]; [right; reflexivity|].
  destruct (Ascii.eqb_spec d "_") as [->|Hd]; [left; eauto|right; reflexivity].
Qed.

Lemma Replace_dunder_split (b : string) (a : string) :
  (endsWithUnderscore a = false ->
   Replace (a +:+ "__" +:+ b) "__" "." =
   Replace a "__" "." +:+ "." +:+ Replace b "__" ".") /\
  (forall c,
      endsWithUnderscore (String c a) = false ->
      Replace (String c a +:+ "__" +:+ b) "__" "." =
      Replace (String c a) "__" "." +:+ "." +:+ Replace b "__" ".").
Proof.
  induction a as [|d a [IHa IHda]].
  - split.
    { intros _. change ("" +:+ "__" +:+ b) with (String "_" (String "_" b)).
      rewrite Replace_dunder_match. reflexivity. }
    intros c Hc. cbn [endsWithUnderscore] in Hc.
    change (String c "" +:+ "__" +:+ b)
      with (String c (String "_" (String "_" b))).
    rewrite !(Replace_dunder_skip c) by (rewrite Hc; reflexivity).
    rewrite Replace_dunder_match. reflexivity.
  - split; [exact (IHda d)|].
    intros c Hc. change (endsWithUnderscore (String d a) = false) in Hc.
    change (String c (String d a) +:+ "__" +:+ b)
      with (String c (String d (a +:+ "__" +:+ b))).
    destruct (Replace_dunder_cases c (String d a)) as [(s' & -> & [= -> <-])|Hskip].
    + rewrite !Replace_dunder_match.
      rewrite IHa; [symmetry; apply append_assoc|].
      destruct a as [|e a]; [discriminate Hc|exact Hc].
    + rewrite (Replace_dunder_skip c (String d a) Hskip).
      rewrite Replace_dunder_skip
        by (rewrite prefix_underscore in *; exact Hskip).
      change (String d (a +:+ "__" +:+ b)) with (String d a +:+ "__" +:+ b).
      rewrite (IHda d Hc). reflexivity.
Qed.

Lemma Replace_dunder_id (s : string) :
  hasDoubleUnderscore s = false -> Replace s "__" "." = s.
Proof.
  induction s as [|c s IH]; [reflexivity|].
  cbn [hasDoubleUnderscore]. intros H. apply orb_false_iff in H as [Hc Hs].
  rewrite Replace_dunder_skip by exact Hc. rewrite IH by exact Hs. reflexivity.
Qed.

(** The output of the scan has no two underscores in a row. *)
Lemma Replace_dunder_clean (s : string) :
  hasDoubleUnderscore (Replace s "__" ".") = false /\
  (forall c,
      hasDoubleUnderscore (Replace (String c s) "__" ".") = false /\
      (Ascii.eqb c "_" = false ->
       String.prefix "_" (Replace (String c s) "__" ".") = false)).
Proof.
  induction s as [|d s [IHs IHds]].
  - split; [reflexivity|]. intros c.
    rewrite Replace_dunder_skip
      by (rewrite prefix_underscore; apply andb_false_r).
    change (Replace "" "__" ".") with "".
    cbn [hasDoubleUnderscore]. rewrite !prefix_underscore.
    split; [rewrite andb_false_r; reflexivity|]. intros Hc. exact Hc.
  - split; [exact (proj1 (IHds d))|]. intros c.
    destruct (Replace_dunder_cases c (String d s)) as [(s' & -> & [= -> <-])|Hskip].
    + rewrite Replace_dunder_match.
      change ("." +:+ Replace s "__" ".") with (String "." (Replace s "__" ".")).
      cbn [hasDoubleUnderscore]. change (Ascii.eqb "." "_") with false.
      cbn [andb orb]. split; [exact IHs|]. intros Hc; discriminate Hc.
    + rewrite (Replace_dunder_skip c (String d s) Hskip).
      destruct (IHds d) as [Hclean Hstart].
      cbn [hasDoubleUnderscore]. rewrite Hclean, orb_false_r.
      rewrite (prefix_underscore (String c _)).
      split; [|intros Hc; exact Hc].
      destruct (Ascii.eqb c "_") eqn:Ec; [|reflexivity].
      cbn [andb] in *. apply Hstart.
      rewrite prefix_underscore in Hskip. exact Hskip.
Qed.

(** X16: the key of an environment variable is its name without the prefix
    ALERTIRIS_, in lower case, each double underscore turned into a dot:
    a name without a double underscore is only lowered, a double underscore
    after a part that does not end with an underscore splits the key there,
    and the key never has two underscores in a row (of three underscores the
    first two make the dot). *)
Theorem envKey_levels :
  (forall a,
      isASCII a = true -> hasDoubleUnderscore a = false ->
      envKey ("ALERTIRIS_" +:+ a) = ToLower a) /\
  (forall a b,
      isASCII a = true -> isASCII b = true ->
      endsWithUnderscore a = false ->
      envKey ("ALERTIRIS_" +:+ a +:+ "__" +:+ b) =
      envKey ("ALERTIRIS_" +:+ a) +:+ "." +:+ envKey ("ALERTIRIS_" +:+ b)) /\
  (forall s, isASCII s = true -> hasDoubleUnderscore (envKey s) = false).
Proof.
  assert (forall x, envKey ("ALERTIRIS_" +:+ x) = Replace (ToLower x) "__" ".")
    as Hkey.
  { intros x. unfold envKey, TrimPrefix. rewrite stripPrefix_app. reflexivity. }
  split; [|split].
  - intros a _ Ha. rewrite Hkey. apply Replace_dunder_id.
    rewrite ToLower_hasDoubleUnderscore. exact Ha.
  - intros a b _ _ Ha. rewrite !Hkey. rewrite !ToLower_app.
    change (ToLower "__") with "__".
    apply (Replace_dunder_split (ToLower b) (ToLower a)).
    rewrite ToLower_endsWithUnderscore. exact Ha.
  - intros s _. unfold envKey. apply Replace_dunder_clean.
Qed.

Lemma envKey_levels_witness :
  envKey "ALERTIRIS_IRIS__API_KEY" = "iris" +:+ "." +:+ "api_key".
Proof.
  destruct envKey_levels as (Hplain & Hsplit & _).
  change "ALERTIRIS_IRIS__API_KEY"
    with ("ALERTIRIS_" +:+ "IRIS" +:+ "__" +:+ "API_KEY").
  rewrite (Hsplit "IRIS" "API_KEY") by reflexivity.
  rewrite (Hplain "IRIS"), (Hplain "API_KEY") by reflexivity.
  reflexivity.
Defined.

(** ** The empty description *)

Lemma append_empty (s t : string) : s +:+ t = "" -> s = "" /\ t = "".
Proof. destruct s; [intros H; split; [reflexivity|exact H]|discriminate]. Qed.

Lemma Join_empty (lines : list string) (sep : string) :
  Forall (fun l => l <> "") lines -> Join lines sep = "" -> lines = [].
Proof.
  intros Hall Hj. destruct lines as [|x rest]; [reflexivity|].
  apply Forall_cons in Hall as [Hx _]. cbn [Join] in Hj.
  destruct rest; [contradiction|].
  apply append_empty in Hj as [-> _]. contradiction.
Qed.

Lemma fieldLine_not_empty (kv : string * string) : fieldLine kv <> "".
Proof.
  unfold fieldLine. intros H. apply append_empty in H as [_ H].
  discriminate H.
Qed.

(** X17: the description is the empty string exactly when every one of the
    thirteen recognised fields is empty; as soon as one of them has a value
    the description is not empty. *)
Theorem alertDescription_empty_iff (alert : Alert) :
  alertDescription alert = "" <->
  Forall (fun kv => kv.2 = "") (descriptionFields alert).
Proof.
  rewrite alertDescription_refines. unfold descriptionFor, descriptionLines.
  generalize (descriptionFields alert) as fields.
  intros fields. split.
  - intros Hj. apply Join_empty in Hj.
    + apply fmap_nil_inv in Hj. induction fields as [|kv fields IH];
        [constructor|].
      cbn [List.filter] in Hj. unfold nonEmpty at 1 in Hj.
      destruct (String.eqb_spec kv.2 "") as [He|He]; cbn [negb] in Hj;
        [|discriminate Hj].
      constructor; [exact He|apply IH, Hj].
    + apply Forall_fmap, Forall_forall. intros kv _. apply fieldLine_not_empty.
  - intros Hall. induction Hall as [|kv fields He _ IH]; [reflexivity|].
    cbn [List.filter]. unfold nonEmpty at 1. rewrite He. exact IH.
Qed.

(** ** The further properties on the fixtures *)

Section MoreExamples.
Import Fixtures.
Existing Instance stubLib.

Lemma store_then_lookup_witness :
  Tracked serverOK (store (storeAlertID serverOK "abc123" 42 corrupted))
    "abc123" 42.
Proof.
  destruct (store_then_lookup serverOK serverOK "abc123" 42 corrupted)
    as (Hok & _ & _).
  apply Hok; [reflexivity | reflexivity |].
  unfold isInt, minInt, maxInt. lia.
Defined.

Lemma delete_then_lookup_witness :
  Untracked serverOK (store (deleteAlertID serverOK "abc123" tracking42))
    "abc123" /\
  store (deleteAlertID serverOK "zzz" tracking42) = tracking42.
Proof.
  split.
  - destruct (delete_then_lookup serverOK serverOK "abc123" tracking42)
      as (Hok & _).
    apply Hok; reflexivity.
  - destruct (delete_then_lookup serverOK serverOK "zzz" tracking42)
      as (_ & Hid & _).
    apply Hid; [reflexivity | vm_compute; reflexivity].
Defined.

Lemma error_leaves_index_unchanged_witness :
  store (processAlert (handler "delete") diskFull (diskFullAlert "resolved")
           tracking42) = tracking42.
Proof.
  apply (error_leaves_index_unchanged (handler "delete") diskFull
           (diskFullAlert "resolved") tracking42).
  vm_compute. discriminate.
Defined.

Lemma other_entries_untouched_witness :
  store (processAlert (handler "update") serverOK (diskFullAlert "firing")
           {[ "fp:other" := "7" ]}) !! "fp:other" = Some "7".
Proof.
  destruct (other_entries_untouched (handler "update") serverOK
              (diskFullAlert "firing") {[ "fp:other" := "7" ]}) as [Hkey _].
  rewrite Hkey; [reflexivity|]. vm_compute. discriminate.
Defined.

Lemma lookup_failure_stops_alert_witness :
  processAlert (handler "update") serverOK (diskFullAlert "firing") corrupted =
  mkOut (Some (Errorf "db lookup" (NumError "Atoi" "4x2"))) corrupted
    [EvView "fp:abc123" (inl (NumError "Atoi" "4x2"))].
Proof.
  destruct (lookup_failure_stops_alert (handler "update") serverOK
              (diskFullAlert "firing") corrupted) as [_ Hbad].
  apply (Hbad "4x2"); vm_compute; reflexivity.
Defined.

Lemma unknown_status_ignored_witness :
  let out := processAlert (handler "update") serverOK
               (diskFullAlert "suppressed") tracking42 in
  store out = tracking42 /\ remoteCalls (events out) = [] /\
  result out = None.
Proof.
  cbv zeta.
  destruct (unknown_status_ignored (handler "update") serverOK
              (diskFullAlert "suppressed") tracking42)
    as (Hst & Hcalls & _ & Hres); [discriminate | discriminate |].
  split; [exact Hst|]. split; [exact Hcalls|]. apply Hres.
  vm_compute. reflexivity.
Defined.

Lemma update_calls_are_partial_witness :
  let req := updateRequest (handler "update") (diskFullAlert "firing") in
  identityUntouched req /\ upd_StatusID req = None.
Proof.
  cbv zeta.
  destruct (update_calls_are_partial (handler "update") serverOK
              (diskFullAlert "firing") tracking42
              42 (updateRequest (handler "update") (diskFullAlert "firing"))
              1 None) as (Hid & Hfiring & _).
  - vm_compute. right. left.
  - split; [exact Hid|]. apply Hfiring. reflexivity.
Defined.

Lemma resolution_ignores_alert_content_witness :
  processAlert (handler "update") serverOK (diskFullAlert "resolved") tracking42 =
  processAlert (handler "update") serverOK (alertOf "resolved" "abc123" ∅)
    tracking42.
Proof.
  apply resolution_ignores_alert_content; reflexivity.
Defined.

Lemma created_then_fired_again_witness :
  let out1 := processAlert (handler "update") serverOK
                (diskFullAlert "firing") ∅ in
  let out2 := processAlert (handler "update") serverOK
                (diskFullAlert "firing") (store out1) in
  remoteCalls (events out2) =
    [EvUpdateAlert 42
       (updateRequest (handler "update") (diskFullAlert "firing")) 1 None] /\
  store out2 !! "fp:abc123" = Some "42".
Proof.
  cbv zeta.
  destruct (created_then_fired_again (handler "update") serverOK serverOK
              (diskFullAlert "firing") (diskFullAlert "firing") ∅ 42)
    as (Hcalls & _ & Hkept);
    try reflexivity; try (vm_compute; reflexivity).
  - unfold isInt, minInt, maxInt. lia.
  - split; [exact Hcalls|exact Hkept].
Defined.

Lemma created_then_resolved_witness :
  let out1 := processAlert (handler "delete") serverOK
                (diskFullAlert "firing") ∅ in
  let out2 := processAlert (handler "delete") serverOK
                (diskFullAlert "resolved") (store out1) in
  remoteCalls (events out2) = [EvDeleteAlert 42 1 None] /\ store out2 = ∅.
Proof.
  cbv zeta.
  destruct (created_then_resolved (handler "delete") serverOK serverOK
              (diskFullAlert "firing") (diskFullAlert "resolved") ∅ 42)
    as (Hcalls & Hback & _);
    try reflexivity; try (vm_compute; reflexivity).
  - unfold isInt, minInt, maxInt. lia.
  - split; [exact Hcalls|]. apply Hback. vm_compute. reflexivity.
Defined.

Lemma webhook_refuses_without_processing_witness :
  let out := HandleWebhook (handler "update") (fun _ => serverOK)
               {| r_Method := "GET"; r_Body := "abc123" |} tracking42 in
  code (result out) = 405 /\ events out = [] /\ store out = tracking42.
Proof.
  cbv zeta.
  destruct (webhook_refuses_without_processing (handler "update")
              (fun _ => serverOK) {| r_Method := "GET"; r_Body := "abc123" |}
              tracking42) as [Hget _].
  apply Hget. discriminate.
Defined.

Lemma call_depends_on_one_answer_witness :
  DeleteAlert_result (iris (handler "update")) serverOK 42 1 =
  DeleteAlert_result (iris (handler "update")) diskFull 42 1.
Proof.
  destruct (call_depends_on_one_answer (iris (handler "update")) serverOK
              diskFull 1) as (_ & _ & _ & Hdel).
  apply Hdel. reflexivity.
Defined.

Lemma alertDescription_empty_iff_witness :
  alertDescription (alertOf "firing" "" {[ "team" := "storage" ]}) = "".
Proof.
  apply alertDescription_empty_iff. vm_compute.
  repeat constructor.
Defined.

Lemma index_stays_decodable_witness :
  decodable (store (processAlert (handler "update") serverOK
                      (diskFullAlert "firing") ∅)).
Proof.
  destruct (index_stays_decodable (handler "update") ∅) as (Hstep & _).
  - intros data id. apply Atoi_isInt.
  - intros key val Hkv. rewrite lookup_empty in Hkv. discriminate Hkv.
  - apply Hstep.
Defined.

Lemma stored_id_is_created_id_witness :
  exists req id,
    remoteCalls (events (processAlert (handler "update") serverOK
                           (diskFullAlert "firing") ∅)) =
      [EvCreateAlert req 1 (inr id)] /\
    req_SourceRef req = "abc123" /\
    "fp:abc123" = dbKey "abc123" /\ "42" = Itoa id.
Proof.
  apply (stored_id_is_created_id (handler "update") serverOK
           (diskFullAlert "firing") ∅ "fp:abc123" "42" None).
  vm_compute. right. right. left.
Defined.

End MoreExamples.

(** ** Two requests for one new fingerprint *)

Section InterleavingFacts.
Context `{lib : Lib}.

(** Run without interruption, the lookup and what follows it are
    [processAlert]. *)
Lemma processAlert_lookup_then_rest (h : Handler) (env : Env) (alert : Alert) :
  processAlert h env alert =
  (res ← getAlertID env (Fingerprint alert); afterLookup h env alert res).
Proof. reflexivity. Qed.

(** The schedule with the second lookup moved after the first alert is the
    two alerts one after the other. *)
Lemma one_after_the_other (h : Handler) (envA envB : Env)
    (alertA alertB : Alert) (db : gmap string string) :
  let outA := processAlert h envA alertA db in
  let outB := processAlert h envB alertB (store outA) in
  (errA ← processAlert h envA alertA;
   errB ← processAlert h envB alertB;
   mret (errA, errB)) db =
  mkOut (result outA, result outB) (store outB) (events outA ++ events outB).
Proof.
  cbv zeta. unfold mbind, M_bind, mret, M_ret. cbn [result store events].
  rewrite app_nil_r. reflexivity.
Qed.

End InterleavingFacts.

(** C2, as stated, fails: two "firing" alerts for the new fingerprint
    "abc123" are reconciled at once; both lookups find nothing, both creates
    succeed (the server returns 42, then 43), both steps return no error,
    and the second write replaces the entry 42 of the first by 43. *)
Lemma concurrent_firings_overwrite_entry :
  let h := Fixtures.handler "update" in
  let alert := Fixtures.diskFullAlert "firing" in
  let req := @createRequest Fixtures.echoLib h alert in
  let out :=
    @bothLookupsFirst Fixtures.echoLib h
      (Fixtures.answering 200 "42") (Fixtures.answering 200 "43")
      alert alert ∅ in
  result out = (None, None) /\
  viewedKeys (events out) = ["fp:abc123"; "fp:abc123"] /\
  remoteCalls (events out) =
    [EvCreateAlert req 1 (inr 42); EvCreateAlert req 1 (inr 43)] /\
  List.filter isIndexWrite (events out) =
    [EvSet "fp:abc123" "42" None; EvSet "fp:abc123" "43" None] /\
  replay ∅ [EvSet "fp:abc123" "42" None] !! "fp:abc123" = Some "42" /\
  store out !! "fp:abc123" = Some "43" /\
  setsFresh ∅ (events out) = false.
Proof. vm_compute. repeat split. Qed.
